(** * issconsole: a console client for the Open Notify ISS service

    A shallow embedding of [issconsole.py] : the three operations of the
    class [ISSSpaceStation] ([location], [passing], [people]), its four error
    reporters and the click command group that dispatches to them.

    The program is a straight request / parse / print pipeline whose control
    flow is carried by Python exceptions, so the embedding is a state and
    exception monad: the state holds what was echoed to the terminal and the
    requests handed to [urllib.request.urlopen]; [exit(-1)] is the raising of
    [SystemExit], which no [except] clause of the program catches.

    What the program calls but does not define (the network, [json.loads],
    [datetime.fromtimestamp], the [repr] of floats and strings, the [int]
    parser of strings) is gathered in a [runtime] record over which every
    definition is parameterised.  [click.style] and [click.echo] are those
    of click 8: a styled message is a text with its colour, and a message
    that is not a str is converted with [str]. *)

From Stdlib Require Import ZArith QArith List String Ascii Bool Lia.
From Stdlib Require Import DecimalString.
Import ListNotations.

Set Warnings "-register-all".
Local Open Scope string_scope.
Local Open Scope Z_scope.

(** ** Python values *)

(** A Python [float]: a finite value (carried by a rational, which is enough
    for comparison and truncation), the two infinities and NaN. *)
Inductive pyfloat : Type :=
| Finite (q : Q)
| PosInf
| NegInf
| NaN.

Definition Qltb (a b : Q) : bool :=
  (Qnum a * QDen b <? Qnum b * QDen a)%Z.

(** [x < y] on floats: every comparison with NaN is false. *)
Definition float_lt (x y : pyfloat) : bool :=
  match x, y with
  | NaN, _ => false
  | _, NaN => false
  | NegInf, NegInf => false
  | NegInf, _ => true
  | _, NegInf => false
  | PosInf, _ => false
  | Finite _, PosInf => true
  | Finite a, Finite b => Qltb a b
  end.

(** [x > y] is the reflected [y < x]. *)
Definition float_gt (x y : pyfloat) : bool := float_lt y x.

(** [x <= y] on floats (used to say "inside the inclusive range"). *)
Definition float_le (x y : pyfloat) : bool :=
  match x, y with
  | NaN, _ => false
  | _, NaN => false
  | NegInf, _ => true
  | _, NegInf => false
  | _, PosInf => true
  | PosInf, _ => false
  | Finite a, Finite b => negb (Qltb b a)
  end.

Definition float_of_Z (n : Z) : pyfloat := Finite (inject_Z n).

(** What [json.loads] builds: None, bool, int, float, str, list and dict
    (a dict keeps its insertion order, hence the association list). *)
Inductive pyobj : Type :=
| PyNone
| PyBool (b : bool)
| PyInt (n : Z)
| PyFloat (f : pyfloat)
| PyStr (s : string)
| PyList (items : list pyobj)
| PyDict (items : list (string * pyobj)).

Coercion PyStr : string >-> pyobj.

Definition type_name (o : pyobj) : string :=
  match o with
  | PyNone => "NoneType"
  | PyBool _ => "bool"
  | PyInt _ => "int"
  | PyFloat _ => "float"
  | PyStr _ => "str"
  | PyList _ => "list"
  | PyDict _ => "dict"
  end.

(** ** Exceptions *)

(** The causes of the [TypeError]s the program can meet. *)
Inductive type_error : Type :=
| NotSubscriptable (ty : string)
| BadIndices (container index_ty : string)
| IntArgument (ty : string)
| ConcatNonStr (ty : string)
| AddOperands (lhs rhs : string).

(** [URLError] carries [str(re.reason)]; [JSONDecodeError] its five
    attributes.  [OverflowError] also stands for the [OSError] and
    [ValueError] of [datetime.fromtimestamp] on a time out of range, and
    [OtherError] for any exception class the program never names. *)
Inductive exc : Type :=
| SystemExit (code : Z)
| URLError (reason : string)
| JSONDecodeError (msg doc : string) (pos lineno colno : Z)
| UnicodeDecodeError
| RuntimeError (msg : string)
| TypeError (why : type_error)
| NameError (msg : string)
| KeyError (key : pyobj)
| IndexError
| ValueError
| OverflowError
| OtherError (name : string).

Definition class_name (e : exc) : string :=
  match e with
  | SystemExit _ => "SystemExit"
  | URLError _ => "URLError"
  | JSONDecodeError _ _ _ _ _ => "JSONDecodeError"
  | UnicodeDecodeError => "UnicodeDecodeError"
  | RuntimeError _ => "RuntimeError"
  | TypeError _ => "TypeError"
  | NameError _ => "NameError"
  | KeyError _ => "KeyError"
  | IndexError => "IndexError"
  | ValueError => "ValueError"
  | OverflowError => "OverflowError"
  | OtherError n => n
  end.

Inductive result (A : Type) : Type :=
| Ret (a : A)
| Raise (e : exc).
Arguments Ret {A} a.
Arguments Raise {A} e.

(** ** The outside world *)

Definition bytes : Type := list Byte.byte.

(** [urllib.request.Request(url)]. *)
Record Request : Type := mkRequest { full_url : string }.

(** The object [urlopen] returns; [read] is its body. *)
Record HTTPResponse : Type := mkResponse { read : bytes }.

Record runtime : Type := mkRuntime {
  (** what the [n]-th call of [urlopen] (counted from 0) meets *)
  urlopen_meets : nat -> Request -> result HTTPResponse;
  (** [json.loads] on the bytes of a body *)
  json_loads : bytes -> result pyobj;
  (** [str(datetime.fromtimestamp(t))] in the local time zone, [None] when
      the time is out of the platform's range *)
  fromtimestamp : Z -> option string;
  (** [repr] of a float and of a str *)
  float_repr : pyfloat -> string;
  str_repr : string -> string;
  (** [int(s)] for a str [s], [None] when it raises [ValueError] *)
  int_of_text : string -> option Z;
  (** the message of a [TypeError] *)
  type_error_text : type_error -> string
}.

(** ** Terminal output and program state *)

Inductive color : Type := red | green | bright_white.

(** The value of [click.style(text, fg=..., bold=...)]. *)
Record styled : Type := mkStyled {
  text : string;
  fg : color;
  bold : bool
}.

Record state : Type := mkState {
  stdout : list styled;
  requests : list Request
}.

Definition initial : state := {| stdout := []; requests := [] |}.

(** ** The monad of the program *)

Definition M (A : Type) : Type := state -> result A * state.

Definition ret {A} (a : A) : M A := fun s => (Ret a, s).

Definition raise {A} (e : exc) : M A := fun s => (Raise e, s).

Definition bind {A B} (m : M A) (k : A -> M B) : M B :=
  fun s =>
    match m s with
    | (Ret a, s') => k a s'
    | (Raise e, s') => (Raise e, s')
    end.

Definition lift {A} (r : result A) : M A := fun s => (r, s).

Declare Scope py_scope.
Delimit Scope py_scope with py.
Notation "x <- m ;; k" := (bind m (fun x => k))
  (at level 61, m at next level, right associativity) : py_scope.
Notation "m ;; k" := (bind m (fun _ => k))
  (at level 61, right associativity) : py_scope.
Local Open Scope py_scope.

(** [try: m  except C as e: h]: the clause [C] is a selector that picks the
    exceptions of its classes; an exception raised by [h] is not caught
    again. *)
Definition try_except {A X} (m : M A) (clause : exc -> option X)
    (h : X -> M A) : M A :=
  fun s =>
    match m s with
    | (Ret a, s') => (Ret a, s')
    | (Raise e, s') =>
        match clause e with
        | Some x => h x s'
        | None => (Raise e, s')
        end
    end.

(** [for x in xs: body]. *)
Fixpoint for_ {A} (xs : list A) (body : A -> M unit) : M unit :=
  match xs with
  | [] => ret tt
  | x :: xs' => body x ;; for_ xs' body
  end.

(** [range(n)]: empty when [n] is not positive. *)
Definition range (n : Z) : list nat := seq 0 (Z.to_nat n).

(** [exit(code)] raises [SystemExit]; it never returns. *)
Definition exit {A} (code : Z) : M A := raise (SystemExit code).

(** ** Text helpers *)

Definition str_of_Z (n : Z) : string := NilZero.string_of_int (Z.to_int n).

Fixpoint join (sep : string) (parts : list string) : string :=
  match parts with
  | [] => ""
  | [p] => p
  | p :: ps => p ++ sep ++ join sep ps
  end.

Fixpoint spaces (n : nat) : string :=
  match n with
  | O => ""
  | S n' => String " " (spaces n')
  end.

(** The format specification [{x: >20}]: right-aligned in a field of at
    least [width] characters, never truncated. *)
Definition rjust (width : nat) (s : string) : string :=
  spaces (width - String.length s) ++ s.

Definition nl : string := String (ascii_of_nat 10) "".

Definition hex_digit (n : N) : ascii :=
  ascii_of_N (if (n <? 10)%N then 48 + n else 55 + n).

Definition is_unreserved (c : ascii) : bool :=
  let n := N_of_ascii c in
  ((48 <=? n) && (n <=? 57) || (65 <=? n) && (n <=? 90)
   || (97 <=? n) && (n <=? 122)
   || (n =? 95) || (n =? 46) || (n =? 45) || (n =? 126))%N.

(** [urllib.parse.quote_plus] on ASCII text: letters, digits and [_.-~] are
    kept, a space becomes [+], anything else [%XX]. *)
Fixpoint quote_plus (s : string) : string :=
  match s with
  | EmptyString => ""
  | String c s' =>
      (if is_unreserved c then String c ""
       else if Ascii.eqb c " " then "+"
       else String "%" (String (hex_digit (N_of_ascii c / 16))
                          (String (hex_digit (N_of_ascii c mod 16)) "")))
      ++ quote_plus s'
  end.

(** ** The class and its instances *)

(** The class object: its three class-level constants. *)
Record ISSClass : Type := mkClass {
  LOCATION_URL : string;
  PASSING_URL : string;
  PEOPLE_URL : string
}.

Definition ISSSpaceStation_class : ISSClass := {|
  LOCATION_URL := "http://api.open-notify.org/iss-now.json";
  PASSING_URL := "http://api.open-notify.org/iss-pass.json";
  PEOPLE_URL := "http://api.open-notify.org/astros.json"
|}.

(** An attribute of an instance holds a float or a tuple of floats. *)
Inductive attr : Type :=
| AFloat (f : pyfloat)
| ATuple (items : list pyfloat).

Record ISSSpaceStation : Type := mkISS {
  latitude : attr;
  longitude : attr
}.

(** [__init__]: [self.latitude = latitude,] builds a one-element tuple. *)
Definition init (latitude longitude : pyfloat) : ISSSpaceStation := {|
  latitude := ATuple [latitude];
  longitude := AFloat longitude
|}.

(** Every instance has the one class. *)
Definition type_of (self : ISSSpaceStation) : ISSClass :=
  ISSSpaceStation_class.

(** The [url] handed to [message_error] is a str or a [Request] object. *)
Inductive pyurl : Type :=
| UrlText (s : string)
| UrlRequest (r : Request).

(** The attributes of a [json.JSONDecodeError]. *)
Record json_error_info : Type := mkJsonError {
  je_msg : string;
  je_doc : string;
  je_pos : Z;
  je_lineno : Z;
  je_colno : Z
}.

(** What [except (RuntimeError, TypeError, NameError, KeyError) as ce]
    binds. *)
Inductive common_exc : Type :=
| CRuntimeError (msg : string)
| CTypeError (why : type_error)
| CNameError (msg : string)
| CKeyError (key : pyobj).

(** The three [except] clauses of the program. *)
Definition as_URLError (e : exc) : option string :=
  match e with
  | URLError reason => Some reason
  | _ => None
  end.

Definition as_JSONDecodeError (e : exc) : option json_error_info :=
  match e with
  | JSONDecodeError msg doc pos lineno colno =>
      Some (mkJsonError msg doc pos lineno colno)
  | _ => None
  end.

Definition as_common (e : exc) : option common_exc :=
  match e with
  | RuntimeError m => Some (CRuntimeError m)
  | TypeError why => Some (CTypeError why)
  | NameError m => Some (CNameError m)
  | KeyError k => Some (CKeyError k)
  | _ => None
  end.

Definition common_class_name (ce : common_exc) : string :=
  match ce with
  | CRuntimeError _ => "RuntimeError"
  | CTypeError _ => "TypeError"
  | CNameError _ => "NameError"
  | CKeyError _ => "KeyError"
  end.

(** ** Dynamic operations of Python *)

(** The value under the key [k]; the keys of a parsed object are distinct
    ([json.loads] keeps the last value of a repeated key). *)
Definition lookup (k : string) (kv : list (string * pyobj)) : option pyobj :=
  match find (fun p => String.eqb (fst p) k) kv with
  | Some p => Some (snd p)
  | None => None
  end.

(** [o[k]] for a str key [k]. *)
Definition getitem (o : pyobj) (k : string) : result pyobj :=
  match o with
  | PyDict kv =>
      match lookup k kv with
      | Some v => Ret v
      | None => Raise (KeyError (PyStr k))
      end
  | PyList _ => Raise (TypeError (BadIndices "list" "str"))
  | PyStr _ => Raise (TypeError (BadIndices "str" "str"))
  | _ => Raise (TypeError (NotSubscriptable (type_name o)))
  end.

(** [o[i]] for an index [i] produced by [range]. *)
Definition getindex (o : pyobj) (i : nat) : result pyobj :=
  match o with
  | PyList l =>
      match nth_error l i with
      | Some v => Ret v
      | None => Raise IndexError
      end
  | PyStr s =>
      match String.get i s with
      | Some c => Ret (PyStr (String c ""))
      | None => Raise IndexError
      end
  | PyDict _ => Raise (KeyError (PyInt (Z.of_nat i)))
  | _ => Raise (TypeError (NotSubscriptable (type_name o)))
  end.

(** Chained subscripts, [o[a][b]]: the first that raises ends the chain. *)
Definition sub_key (r : result pyobj) (k : string) : result pyobj :=
  match r with
  | Ret o => getitem o k
  | Raise e => Raise e
  end.

Definition sub_index (r : result pyobj) (i : nat) : result pyobj :=
  match r with
  | Ret o => getindex o i
  | Raise e => Raise e
  end.

Notation "r @: k" := (sub_key r k) (at level 40, left associativity).
Notation "r @# i" := (sub_index r i) (at level 40, left associativity).

(** [o == s] for a str literal [s]. *)
Definition eq_str (o : pyobj) (s : string) : bool :=
  match o with
  | PyStr s' => String.eqb s' s
  | _ => false
  end.

(** ['literal' + url]. *)
Definition concat (s : string) (u : pyurl) : result string :=
  match u with
  | UrlText t => Ret (s ++ t)
  | UrlRequest _ => Raise (TypeError (ConcatNonStr "Request"))
  end.

(** ** The program *)

Section Program.

Variable rt : runtime.

(** [repr(o)]. *)
Fixpoint py_repr (o : pyobj) : string :=
  match o with
  | PyNone => "None"
  | PyBool true => "True"
  | PyBool false => "False"
  | PyInt n => str_of_Z n
  | PyFloat f => float_repr rt f
  | PyStr s => str_repr rt s
  | PyList l => "[" ++ join ", " (map py_repr l) ++ "]"
  | PyDict kv =>
      "{" ++ join ", "
               (map (fun p => let '(k, v) := p in
                              str_repr rt k ++ ": " ++ py_repr v) kv)
          ++ "}"
  end.

(** [str(o)]: a str is itself, anything else its [repr]. *)
Definition py_str (o : pyobj) : string :=
  match o with
  | PyStr s => s
  | _ => py_repr o
  end.

(** [int(o)]. *)
Definition py_int (o : pyobj) : result Z :=
  match o with
  | PyInt n => Ret n
  | PyBool b => Ret (if b then 1 else 0)
  | PyFloat (Finite q) => Ret (Z.quot (Qnum q) (QDen q))
  | PyFloat NaN => Raise ValueError
  | PyFloat _ => Raise OverflowError
  | PyStr s =>
      match int_of_text rt s with
      | Some n => Ret n
      | None => Raise ValueError
      end
  | _ => Raise (TypeError (IntArgument (type_name o)))
  end.

(** [str(ce)] for a caught exception: a [KeyError] shows the [repr] of the
    missing key. *)
Definition common_str (ce : common_exc) : string :=
  match ce with
  | CRuntimeError m => m
  | CTypeError why => type_error_text rt why
  | CNameError m => m
  | CKeyError k => py_repr k
  end.

(** [datetime.fromtimestamp(t)], seen through its [str]. *)
Definition datetime_fromtimestamp (t : Z) : result string :=
  match fromtimestamp rt t with
  | Some d => Ret d
  | None => Raise OverflowError
  end.

(** [urllib.parse.urlencode] of a dict of floats. *)
Definition urlencode (data : list (string * pyfloat)) : string :=
  join "&" (map (fun p => quote_plus (fst p) ++ "="
                          ++ quote_plus (float_repr rt (snd p))) data).

(** [click.style]: a message that is not a str is converted with [str]
    (click 8.0 and later). *)
Definition style (message : pyobj) (fg : color) (bold : bool) : styled :=
  {| text := py_str message; fg := fg; bold := bold |}.

(** [click.echo]. *)
Definition echo (line : styled) : M unit :=
  fun s => (Ret tt, {| stdout := stdout s ++ [line];
                       requests := requests s |}).

(** [urllib.request.urlopen]: one outbound GET, recorded in the state. *)
Definition urlopen (url : Request) : M HTTPResponse :=
  fun s => (urlopen_meets rt (List.length (requests s)) url,
            {| stdout := stdout s; requests := requests s ++ [url] |}).

(** *** The error reporters *)

Definition request_error {A} (reason : string) : M A :=
  echo (style reason red false) ;;
  exit (-1).

Definition json_error {A} (je : json_error_info) : M A :=
  echo (style (je_msg je) red false) ;;
  echo (style (je_doc je) red false) ;;
  echo (style (PyInt (je_pos je)) red false) ;;
  echo (style (PyInt (je_lineno je)) red false) ;;
  echo (style (PyInt (je_colno je)) red false) ;;
  exit (-1).

Definition common_error {A} (ce : common_exc) (obj : pyobj) : M A :=
  echo (style ("Common error." ++ nl ++ "Error type: "
               ++ common_class_name ce
               ++ nl ++ "Error: " ++ common_str ce
               ++ nl ++ "Data: " ++ py_str obj) red false) ;;
  exit (-1).

Definition message_error {A} (obj : pyobj) (url : pyurl) : M A :=
  message <- lift (Ret obj @: "message") ;;
  (if eq_str message "failure" then
     reason <- lift (Ret obj @: "reason") ;;
     echo (style (py_str reason) red false)
   else
     prefix <- lift (concat "Unknown error. Url: " url) ;;
     echo (style (prefix ++ " Response: " ++ py_str obj) red false)) ;;
  exit (-1).

(** *** Fetching and parsing, common to the three operations *)

Definition separator : string :=
  "----------------------------------------------".
Definition separator_plus : string :=
  "-----------------------+----------------------".

(** [try: response = urlopen(url)  except URLError as re: request_error(re)] *)
Definition fetch (url : Request) : M HTTPResponse :=
  try_except (urlopen url) as_URLError request_error.

(** [try: obj = json.loads(response.read())
     except JSONDecodeError as je: json_error(je)] *)
Definition parse (response : HTTPResponse) : M pyobj :=
  try_except (lift (json_loads rt (read response))) as_JSONDecodeError
             json_error.

(** *** location *)

(** The body of the last [try] of [location]. *)
Definition location_body (obj : pyobj) (url : Request) : M unit :=
  message <- lift (Ret obj @: "message") ;;
  if eq_str message "success" then
    t <- lift (Ret obj @: "timestampss") ;;
    timestamp <- lift (py_int t) ;;
    timestamp <- lift (datetime_fromtimestamp timestamp) ;;
    la <- lift (Ret obj @: "iss_position" @: "latitude") ;;
    let latitude := py_str la in
    lo <- lift (Ret obj @: "iss_position" @: "longitude") ;;
    let longitude := py_str lo in
    echo (style (nl ++ "The ISS current location") bright_white true) ;;
    echo (style (nl ++ "Time:      " ++ timestamp) green false) ;;
    echo (style ("Latitude:  " ++ latitude) green false) ;;
    echo (style ("Longitude: " ++ longitude) green false)
  else
    message_error obj (UrlRequest url).

Definition location (cls : ISSClass) : M unit :=
  let url := mkRequest (LOCATION_URL cls) in
  response <- fetch url ;;
  obj <- parse response ;;
  try_except (location_body obj url) as_common
             (fun ce => common_error ce obj).

(** *** passing *)

(** One turn of the row loop of [passing]. *)
Definition passing_row (obj : pyobj) (x : nat) : M unit :=
  d <- lift (Ret obj @: "response" @# x @: "duration") ;;
  let duration := py_str d in
  r <- lift (Ret obj @: "response" @# x @: "risetime") ;;
  risetime <- lift (py_int r) ;;
  rs <- lift (datetime_fromtimestamp risetime) ;;
  echo (style ("| " ++ rjust 20 duration ++ " | " ++ rjust 20 rs ++ "|")
              green false).

(** The body of the last [try] of [passing]. *)
Definition passing_body (obj : pyobj) (url : Request) : M unit :=
  message <- lift (Ret obj @: "message") ;;
  (if eq_str message "success" then
     la <- lift (Ret obj @: "request" @: "latitude") ;;
     let latitude := py_str la in
     lo <- lift (Ret obj @: "request" @: "longitude") ;;
     let longitude := py_str lo in
     p <- lift (Ret obj @: "request" @: "passes") ;;
     passes <- lift (py_int p) ;;
     echo (style (nl ++ "The ISS will be overhead") bright_white true) ;;
     echo (style (nl ++ "Latitude:  " ++ latitude) green false) ;;
     echo (style ("Longitude: " ++ longitude) green false) ;;
     echo (style ("Passes: " ++ str_of_Z passes ++ nl) green false) ;;
     echo (style separator green false) ;;
     echo (style "| Duration             | Risetime            |"
                 green false) ;;
     echo (style separator_plus green false) ;;
     for_ (range passes) (passing_row obj)
   else
     message_error obj (UrlRequest url)) ;;
  echo (style separator green false).

Definition passing (cls : ISSClass) (latitide longitude : pyfloat)
    : M unit :=
  (if float_lt latitide (float_of_Z (-80))
      || float_gt latitide (float_of_Z 80)
   then
     echo (style "Latitude must be number between -80.0 and 80.0"
                 red false) ;;
     exit (-1)
   else ret tt) ;;
  (if float_lt longitude (float_of_Z (-180))
      || float_gt longitude (float_of_Z 180)
   then
     echo (style "Longitude must be number between -180.0 and 180.0"
                 red false) ;;
     exit (-1)
   else ret tt) ;;
  let data := [("lat", latitide); ("lon", longitude)] in
  let url := PASSING_URL cls ++ "?" ++ urlencode data in
  let url := mkRequest url in
  response <- fetch url ;;
  obj <- parse response ;;
  try_except (passing_body obj url) as_common
             (fun ce => common_error ce obj).

(** *** people *)

(** One turn of the row loop of [people]. *)
Definition people_row (obj : pyobj) (i : nat) : M unit :=
  n <- lift (Ret obj @: "people" @# i @: "name") ;;
  let person := py_str n in
  c <- lift (Ret obj @: "people" @# i @: "craft") ;;
  let craft := py_str c in
  echo (style ("| " ++ rjust 20 person ++ " | " ++ rjust 20 craft ++ "|")
              green false).

(** The body of the last [try] of [people]. *)
Definition people_body (obj : pyobj) (url : Request) : M unit :=
  message <- lift (Ret obj @: "message") ;;
  (if eq_str message "success" then
     n <- lift (Ret obj @: "number") ;;
     number_of_people_in_space <- lift (py_int n) ;;
     echo (style (nl ++ "The people now on the Space" ++ nl)
                 bright_white true) ;;
     echo (style separator green false) ;;
     echo (style "| Name                 | Craft               |"
                 green false) ;;
     echo (style separator_plus green false) ;;
     for_ (range number_of_people_in_space) (people_row obj)
   else
     message_error obj (UrlRequest url)) ;;
  echo (style separator green false).

Definition people (cls : ISSClass) : M unit :=
  let url := mkRequest (PEOPLE_URL cls) in
  response <- fetch url ;;
  obj <- parse response ;;
  try_except (people_body obj url) as_common
             (fun ce => common_error ce obj).

(** *** The click commands *)

(** A classmethod called on an instance receives the class of the
    instance, never the instance. *)
Definition call_classmethod {A} (self : ISSSpaceStation)
    (method : ISSClass -> A) : A :=
  method (type_of self).

Definition default_coordinate : pyfloat := float_of_Z 0.

Definition make_loc : M unit :=
  let iss := init default_coordinate default_coordinate in
  call_classmethod iss location.

Definition make_passing (lat lon : pyfloat) : M unit :=
  let iss := init lat lon in
  call_classmethod iss (fun cls => passing cls lat lon).

Definition make_people : M unit :=
  let iss := init default_coordinate default_coordinate in
  call_classmethod iss people.

(** A subcommand of the command line; an option left out is [None]. *)
Inductive command : Type :=
| Loc
| Pass (lat lon : option pyfloat)
| People.

Definition option_value (o : option pyfloat) : pyfloat :=
  match o with
  | Some f => f
  | None => default_coordinate
  end.

Definition invoke (c : command) : M unit :=
  match c with
  | Loc => make_loc
  | Pass lat lon => make_passing (option_value lat) (option_value lon)
  | People => make_people
  end.

(** [cli()]: a chained group runs its subcommands in turn; in click's
    standalone mode a completed run ends in [sys.exit(0)].  Without a
    subcommand the group raises its usage error: the usage screen goes to
    standard error and the exit code is 2 (click 8.2). *)
Definition cli (argv : list command) : M unit :=
  match argv with
  | [] => exit 2
  | _ :: _ =>
      for_ argv invoke ;;
      exit 0
  end.

(** The entry point: [cli()] never returns, the lines after it
    ([add_command], [exit(0)]) are not reached. *)
Definition main (argv : list command) : M unit :=
  cli argv ;;
  exit 0.

(** *** The process *)

(** How the interpreter ends: [SystemExit] gives its code, any other
    exception that reaches the top level a traceback. *)
Inductive termination : Type :=
| Exited (code : Z)
| Traceback (e : exc).

Definition finish (r : result unit * state) : termination * state :=
  match r with
  | (Ret _, s) => (Exited 0, s)
  | (Raise (SystemExit code), s) => (Exited code, s)
  | (Raise e, s) => (Traceback e, s)
  end.

(** A run of the program from an empty terminal. *)
Definition run (m : M unit) : termination * state := finish (m initial).

(** The status the interpreter gives after a traceback is 1. *)
Definition exit_code (t : termination) : Z :=
  match t with
  | Exited code => code
  | Traceback _ => 1
  end.

End Program.

(** ** The methods as functions of their receiver

    [location], [passing] and [people] are class methods: [iss.location()]
    binds their first parameter to the class of [iss].  What a body does
    with that parameter is attribute access, and Python resolves an
    attribute of an instance in the namespace of the instance before that of
    its class.  The operations are given here once more with the receiver
    left open, an object known by what [getattr] gives on it, so that what
    they read of it can be stated. *)

(** What a data attribute holds: the text of a class constant, or what the
    constructor stored. *)
Inductive attr_value : Type :=
| VText (s : string)
| VStored (a : attr).

(** An object, seen through [getattr(o, name)]. *)
Definition receiver : Type := string -> result attr_value.

Definition assoc {A} (name : string) (ns : list (string * A)) : option A :=
  match find (fun p => String.eqb (fst p) name) ns with
  | Some p => Some (snd p)
  | None => None
  end.

(** The data attributes of the class and of an instance (the functions of
    the class are not values of this model). *)
Definition class_namespace (cls : ISSClass) : list (string * attr_value) :=
  [("LOCATION_URL", VText (LOCATION_URL cls));
   ("PASSING_URL", VText (PASSING_URL cls));
   ("PEOPLE_URL", VText (PEOPLE_URL cls))].

Definition instance_namespace (self : ISSSpaceStation)
    : list (string * attr_value) :=
  [("latitude", VStored (latitude self));
   ("longitude", VStored (longitude self))].

Definition class_object (cls : ISSClass) : receiver :=
  fun name =>
    match assoc name (class_namespace cls) with
    | Some v => Ret v
    | None => Raise (OtherError "AttributeError")
    end.

(** The namespace of the instance comes first, then that of its class. *)
Definition instance_object (self : ISSSpaceStation) : receiver :=
  fun name =>
    match assoc name (instance_namespace self) with
    | Some v => Ret v
    | None => class_object (type_of self) name
    end.

(** [urllib.request.Request(v)]: a float or a tuple is no URL
    ([ValueError]: unknown url type). *)
Definition new_Request (v : attr_value) : result Request :=
  match v with
  | VText s => Ret (mkRequest s)
  | VStored _ => Raise ValueError
  end.

(** [v + s] for a str [s]. *)
Definition add_text (v : attr_value) (s : string) : result string :=
  match v with
  | VText t => Ret (t ++ s)
  | VStored (AFloat _) => Raise (TypeError (AddOperands "float" "str"))
  | VStored (ATuple _) => Raise (TypeError (AddOperands "tuple" "str"))
  end.

Section Receivers.

Variable rt : runtime.

(** [location(cls)]: [cls.LOCATION_URL] is the one use of [cls]. *)
Definition location_on (cls : receiver) : M unit :=
  u <- lift (cls "LOCATION_URL") ;;
  url <- lift (new_Request u) ;;
  response <- fetch rt url ;;
  obj <- parse rt response ;;
  try_except (location_body rt obj url) as_common
             (fun ce => common_error rt ce obj).

(** [passing(cls, latitide, longitude)]: [cls.PASSING_URL], read once the
    two checks have passed, is the one use of [cls]. *)
Definition passing_on (cls : receiver) (latitide longitude : pyfloat)
    : M unit :=
  (if float_lt latitide (float_of_Z (-80))
      || float_gt latitide (float_of_Z 80)
   then
     echo (style rt "Latitude must be number between -80.0 and 80.0"
                 red false) ;;
     exit (-1)
   else ret tt) ;;
  (if float_lt longitude (float_of_Z (-180))
      || float_gt longitude (float_of_Z 180)
   then
     echo (style rt "Longitude must be number between -180.0 and 180.0"
                 red false) ;;
     exit (-1)
   else ret tt) ;;
  let data := [("lat", latitide); ("lon", longitude)] in
  u <- lift (cls "PASSING_URL") ;;
  base <- lift (add_text u "?") ;;
  let url := base ++ urlencode rt data in
  let url := mkRequest url in
  response <- fetch rt url ;;
  obj <- parse rt response ;;
  try_except (passing_body rt obj url) as_common
             (fun ce => common_error rt ce obj).

(** [people(cls)]: [cls.PEOPLE_URL] is the one use of [cls]. *)
Definition people_on (cls : receiver) : M unit :=
  u <- lift (cls "PEOPLE_URL") ;;
  url <- lift (new_Request u) ;;
  response <- fetch rt url ;;
  obj <- parse rt response ;;
  try_except (people_body rt obj url) as_common
             (fun ce => common_error rt ce obj).

End Receivers.

(** Two receivers on which the three URL constants resolve alike. *)
Definition same_constants (r r' : receiver) : Prop :=
  forall name,
    In name ["LOCATION_URL"; "PASSING_URL"; "PEOPLE_URL"] ->
    r name = r' name.

(** An instance on which [LOCATION_URL] was rebound to what the constructor
    stores under [latitude]. *)
Definition rebound (self : ISSSpaceStation) : receiver :=
  fun name =>
    if String.eqb name "LOCATION_URL" then Ret (VStored (latitude self))
    else instance_object self name.

(** ** A sample runtime

    A runtime set in UTC, used to run the program on concrete responses:
    the network and the JSON parser are given, the rest follows CPython on
    ASCII text. *)

Module Sample.

(** Days since 1970-01-01 to (year, month, day) of the proleptic Gregorian
    calendar. *)
Definition civil_from_days (z : Z) : Z * Z * Z :=
  let z := z + 719468 in
  let era := z / 146097 in
  let doe := z - era * 146097 in
  let yoe := (doe - doe / 1460 + doe / 36524 - doe / 146096) / 365 in
  let doy := doe - (365 * yoe + yoe / 4 - yoe / 100) in
  let mp := (5 * doy + 2) / 153 in
  let d := doy - (153 * mp + 2) / 5 + 1 in
  let m := if mp <? 10 then mp + 3 else mp - 9 in
  let y := yoe + era * 400 in
  (if m <=? 2 then y + 1 else y, m, d).

Definition digits (width : nat) (n : Z) : string :=
  let s := str_of_Z n in
  (fix zeros (k : nat) : string :=
     match k with
     | O => s
     | S k' => String "0" (zeros k')
     end) (width - String.length s)%nat.

(** [str(datetime.fromtimestamp(t))] when the local zone is UTC; the years
    of [datetime] run from 1 to 9999. *)
Definition utc_fromtimestamp (t : Z) : option string :=
  let '(y, m, d) := civil_from_days (t / 86400) in
  let secs := t mod 86400 in
  if (1 <=? y) && (y <=? 9999) then
    Some (digits 4 y ++ "-" ++ digits 2 m ++ "-" ++ digits 2 d ++ " "
          ++ digits 2 (secs / 3600) ++ ":" ++ digits 2 (secs mod 3600 / 60)
          ++ ":" ++ digits 2 (secs mod 60))
  else None.

Definition is_digit (c : ascii) : bool :=
  let n := N_of_ascii c in ((48 <=? n) && (n <=? 57))%N.

Definition is_space (c : ascii) : bool :=
  let n := N_of_ascii c in (((9 <=? n) && (n <=? 13)) || (n =? 32))%N.

Fixpoint lstrip (s : string) : string :=
  match s with
  | String c s' => if is_space c then lstrip s' else s
  | EmptyString => s
  end.

(** Digits with single underscores between them; [acc] is the value read
    so far, [after_digit] whether the last character was a digit. *)
Fixpoint read_digits (s : string) (acc : Z) (after_digit : bool)
    : option Z :=
  match s with
  | EmptyString => if after_digit then Some acc else None
  | String c s' =>
      if is_digit c then
        read_digits s' (10 * acc + Z.of_N (N_of_ascii c - 48)) true
      else if Ascii.eqb c "_" then
        if after_digit then read_digits s' acc false else None
      else if is_space c then
        if after_digit then
          match lstrip s' with
          | EmptyString => Some acc
          | _ => None
          end
        else None
      else None
  end.

(** [int(s)] on ASCII text: white space around, a sign, decimal digits. *)
Definition ascii_int (s : string) : option Z :=
  match lstrip s with
  | String "-" s' => option_map Z.opp (read_digits s' 0 false)
  | String "+" s' => read_digits s' 0 false
  | s' => read_digits s' 0 false
  end.

Definition hex_lower (n : N) : ascii :=
  ascii_of_N (if (n <? 10)%N then 48 + n else 87 + n).

(** [repr] of a str of ASCII characters. *)
Fixpoint escaped (quote : ascii) (s : string) : string :=
  match s with
  | EmptyString => ""
  | String c s' =>
      (if Ascii.eqb c quote || Ascii.eqb c "\" then String "\" (String c "")
       else if Ascii.eqb c (ascii_of_nat 10) then "\n"
       else if Ascii.eqb c (ascii_of_nat 13) then "\r"
       else if Ascii.eqb c (ascii_of_nat 9) then "\t"
       else if (N_of_ascii c <? 32)%N || (126 <? N_of_ascii c)%N then
         String "\" (String "x"
           (String (hex_lower (N_of_ascii c / 16))
              (String (hex_lower (N_of_ascii c mod 16)) "")))
       else String c "")
      ++ escaped quote s'
  end.

Fixpoint contains (c : ascii) (s : string) : bool :=
  match s with
  | EmptyString => false
  | String c' s' => Ascii.eqb c c' || contains c s'
  end.

Definition dquote : ascii := ascii_of_nat 34.

Definition ascii_repr (s : string) : string :=
  if contains "'" s && negb (contains dquote s) then
    String dquote (escaped dquote s ++ String dquote "")
  else
    "'" ++ escaped "'" s ++ "'".

(** [repr] of a float with a short decimal expansion and no exponent. *)
Fixpoint fraction (fuel : nat) (num den : Z) : string :=
  match fuel with
  | O => ""
  | S fuel' =>
      if num =? 0 then ""
      else str_of_Z (10 * num / den)
           ++ fraction fuel' (10 * num mod den) den
  end.

Definition decimal_repr (f : pyfloat) : string :=
  match f with
  | NaN => "nan"
  | PosInf => "inf"
  | NegInf => "-inf"
  | Finite q =>
      let n := Z.abs (Qnum q) in
      let d := QDen q in
      (if Qnum q <? 0 then "-" else "")
      ++ str_of_Z (n / d) ++ "."
      ++ (if n mod d =? 0 then "0" else fraction 17 (n mod d) d)
  end.

(** The wording of CPython 3.11. *)
Definition cpython_text (why : type_error) : string :=
  match why with
  | NotSubscriptable ty => "'" ++ ty ++ "' object is not subscriptable"
  | BadIndices "list" ty =>
      "list indices must be integers or slices, not " ++ ty
  | BadIndices _ ty => "string indices must be integers, not '" ++ ty ++ "'"
  | IntArgument ty =>
      "int() argument must be a string, a bytes-like object or a real "
      ++ "number, not '" ++ ty ++ "'"
  | ConcatNonStr ty =>
      "can only concatenate str (not " ++ String dquote ty
      ++ String dquote ") to str"
  | AddOperands "tuple" ty =>
      "can only concatenate tuple (not " ++ String dquote ty
      ++ String dquote ") to tuple"
  | AddOperands lhs rhs =>
      "unsupported operand type(s) for +: '" ++ lhs ++ "' and '" ++ rhs
      ++ "'"
  end.

Definition runtime_with (net : nat -> Request -> result HTTPResponse)
    (loads : bytes -> result pyobj) : runtime := {|
  urlopen_meets := net;
  json_loads := loads;
  fromtimestamp := utc_fromtimestamp;
  float_repr := decimal_repr;
  str_repr := ascii_repr;
  int_of_text := ascii_int;
  type_error_text := cpython_text
|}.

(** A service that answers every request with [body], which parses as
    [parsed]. *)
Definition serving (body : bytes) (parsed : result pyobj) : runtime :=
  runtime_with (fun _ _ => Ret (mkResponse body)) (fun _ => parsed).

(** The JSON text of an object, as [json.dumps] writes it. *)
Fixpoint dumps (o : pyobj) : string :=
  match o with
  | PyNone => "null"
  | PyBool true => "true"
  | PyBool false => "false"
  | PyInt n => str_of_Z n
  | PyFloat f => decimal_repr f
  | PyStr s => String dquote (escaped dquote s ++ String dquote "")
  | PyList l => "[" ++ join ", " (map dumps l) ++ "]"
  | PyDict kv =>
      "{" ++ join ", "
               (map (fun p => let '(k, v) := p in
                              String dquote (escaped dquote k
                                             ++ String dquote "")
                              ++ ": " ++ dumps v) kv)
          ++ "}"
  end.

(** A service that answers every request with the JSON text of [obj]. *)
Definition serving_json (obj : pyobj) : runtime :=
  serving (list_byte_of_string (dumps obj)) (Ret obj).

(** A network on which every request fails with [URLError(reason)]. *)
Definition unreachable (reason : string) : runtime :=
  runtime_with (fun _ _ => Raise (URLError reason))
               (fun _ => Raise (OtherError "unused")).

(** A server that closes the connection without an answer:
    [http.client.RemoteDisconnected], which is not a [URLError]. *)
Definition disconnecting : runtime :=
  runtime_with (fun _ _ => Raise (OtherError "RemoteDisconnected"))
               (fun _ => Raise (OtherError "unused")).

End Sample.

(** ** The vocabulary of the statements

    What a command asks of the service, what the terminal and the list of
    requests look like afterwards, and what a well-formed response is. *)

Section Specification.

Variable rt : runtime.

(** Inside the inclusive range [[lo, hi]]. *)
Definition in_range (lo hi : Z) (x : pyfloat) : bool :=
  float_le (float_of_Z lo) x && float_le x (float_of_Z hi).

(** Strictly below [lo] or strictly above [hi]. *)
Definition beyond (lo hi : Z) (x : pyfloat) : bool :=
  float_lt x (float_of_Z lo) || float_lt (float_of_Z hi) x.

(** The check of [passing] lets the coordinates through. *)
Definition passes_validation (c : command) : bool :=
  match c with
  | Pass lat lon =>
      negb (beyond (-80) 80 (option_value lat))
      && negb (beyond (-180) 180 (option_value lon))
  | _ => true
  end.

(** The request a command sends once its arguments are accepted. *)
Definition command_request (c : command) : Request :=
  match c with
  | Loc => mkRequest (LOCATION_URL ISSSpaceStation_class)
  | Pass lat lon =>
      mkRequest (PASSING_URL ISSSpaceStation_class ++ "?"
                 ++ urlencode rt [("lat", option_value lat);
                                  ("lon", option_value lon)])
  | People => mkRequest (PEOPLE_URL ISSSpaceStation_class)
  end.

(** The presenter of a command. *)
Definition command_body (c : command) : pyobj -> Request -> M unit :=
  match c with
  | Loc => location_body rt
  | Pass _ _ => passing_body rt
  | People => people_body rt
  end.

(** The three operations share one shape. *)
Definition pipeline (url : Request) (body : pyobj -> Request -> M unit)
    : M unit :=
  (response <- fetch rt url ;;
   obj <- parse rt response ;;
   try_except (body obj url) as_common (fun ce => common_error rt ce obj))%py.

(** [echo]ing [lines] after what is already on the terminal. *)
Definition emit (lines : list styled) (s : state) : state :=
  {| stdout := stdout s ++ lines; requests := requests s |}.

(** The state once [url] was requested. *)
Definition requested (url : Request) (s : state) : state :=
  {| stdout := stdout s; requests := requests s ++ [url] |}.

(** The text [common_error] prints. *)
Definition common_text (ce : common_exc) (obj : pyobj) : string :=
  "Common error." ++ nl ++ "Error type: " ++ common_class_name ce
  ++ nl ++ "Error: " ++ common_str rt ce
  ++ nl ++ "Data: " ++ py_str rt obj.

(** A computation that leaves the list of requests as it found it. *)
Definition quiet {A} (m : M A) : Prop :=
  forall s, requests (snd (m s)) = requests s.

(** A computation that sends exactly the request [url]. *)
Definition sends {A} (url : Request) (m : M A) : Prop :=
  forall s, requests (snd (m s)) = (requests s ++ [url])%list.

(** The service answers the request of [c] with a body that parses as
    [obj]. *)
Definition answers (c : command) (obj : pyobj) : Prop :=
  exists response,
    urlopen_meets rt 0 (command_request c) = Ret response
    /\ json_loads rt (read response) = Ret obj.

(** The row of a pass: its duration, and its rise time as a local time. *)
Definition pass_row (entry : pyobj) : option styled :=
  match getitem entry "duration", getitem entry "risetime" with
  | Ret d, Ret r =>
      match py_int rt r with
      | Ret t =>
          match fromtimestamp rt t with
          | Some rs =>
              Some (style rt ("| " ++ rjust 20 (py_str rt d) ++ " | "
                              ++ rjust 20 rs ++ "|") green false)
          | None => None
          end
      | Raise _ => None
      end
  | _, _ => None
  end.

(** The row of a person: name and craft. *)
Definition person_row (entry : pyobj) : option styled :=
  match getitem entry "name", getitem entry "craft" with
  | Ret n, Ret c =>
      Some (style rt ("| " ++ rjust 20 (py_str rt n) ++ " | "
                      ++ rjust 20 (py_str rt c) ++ "|") green false)
  | _, _ => None
  end.

Definition closing : styled := style rt separator green false.

Definition location_lines (time : string) (la lo : pyobj) : list styled :=
  [style rt (nl ++ "The ISS current location") bright_white true;
   style rt (nl ++ "Time:      " ++ time) green false;
   style rt ("Latitude:  " ++ py_str rt la) green false;
   style rt ("Longitude: " ++ py_str rt lo) green false].

Definition passing_header (la lo : pyobj) (passes : Z) : list styled :=
  [style rt (nl ++ "The ISS will be overhead") bright_white true;
   style rt (nl ++ "Latitude:  " ++ py_str rt la) green false;
   style rt ("Longitude: " ++ py_str rt lo) green false;
   style rt ("Passes: " ++ str_of_Z passes ++ nl) green false;
   style rt separator green false;
   style rt "| Duration             | Risetime            |" green false;
   style rt separator_plus green false].

Definition people_header : list styled :=
  [style rt (nl ++ "The people now on the Space" ++ nl) bright_white true;
   style rt separator green false;
   style rt "| Name                 | Craft               |" green false;
   style rt separator_plus green false].

(** A passing response that reports success: the echoed coordinates, the
    announced number of passes and the array of passes. *)
Record passing_response (obj la lo : pyobj) (passes : Z)
    (entries : list pyobj) : Prop := {
  pr_message : Ret obj @: "message" = Ret (PyStr "success");
  pr_latitude : Ret obj @: "request" @: "latitude" = Ret la;
  pr_longitude : Ret obj @: "request" @: "longitude" = Ret lo;
  pr_passes : exists p, Ret obj @: "request" @: "passes" = Ret p
                        /\ py_int rt p = Ret passes;
  pr_response : Ret obj @: "response" = Ret (PyList entries)
}.

(** A people response that reports success. *)
Record people_response (obj : pyobj) (number : Z)
    (entries : list pyobj) : Prop := {
  pp_message : Ret obj @: "message" = Ret (PyStr "success");
  pp_number : exists n, Ret obj @: "number" = Ret n
                        /\ py_int rt n = Ret number;
  pp_people : Ret obj @: "people" = Ret (PyList entries)
}.

End Specification.

(** ** Canned responses *)

Module Canned.

Definition location_ok : pyobj :=
  PyDict [("message", PyStr "success");
          ("timestampss", PyInt 1690000000);
          ("iss_position", PyDict [("latitude", PyStr "10.1");
                                   ("longitude", PyStr "-20.2")])].

(** What the live service sends: the time is under [timestamp]. *)
Definition location_live : pyobj :=
  PyDict [("message", PyStr "success");
          ("timestamp", PyInt 1690000000);
          ("iss_position", PyDict [("latitude", PyStr "10.1");
                                   ("longitude", PyStr "-20.2")])].


Definition pass1 : pyobj :=
  PyDict [("duration", PyInt 600); ("risetime", PyInt 1690000000)].
Definition pass2 : pyobj :=
  PyDict [("duration", PyInt 545); ("risetime", PyInt 1690005800)].

Definition passing_of (passes : Z) (entries : list pyobj) : pyobj :=
  PyDict [("message", PyStr "success");
          ("request", PyDict [("altitude", PyInt 100);
                              ("datetime", PyInt 1689999000);
                              ("latitude", PyFloat (float_of_Z 0));
                              ("longitude", PyFloat (float_of_Z 0));
                              ("passes", PyInt passes)]);
          ("response", PyList entries)].

Definition person (name craft : string) : pyobj :=
  PyDict [("name", PyStr name); ("craft", PyStr craft)].

Definition crew : list pyobj :=
  [person "Chris Cassidy" "ISS"; person "Anatoly Ivanishin" "ISS";
   person "Ivan Vagner" "ISS"].

Definition people_of (number : Z) (entries : list pyobj) : pyobj :=
  PyDict [("message", PyStr "success"); ("number", PyInt number);
          ("people", PyList entries)].

(** A people response whose count is a word. *)
Definition people_uncounted : pyobj :=
  PyDict [("message", PyStr "success"); ("number", PyStr "many");
          ("people", PyList crew)].

Definition failure : pyobj :=
  PyDict [("message", PyStr "failure");
          ("reason", PyStr "Latitude must be number between -90.0 and 90.0")].

Definition unknown : pyobj := PyDict [("message", PyStr "error")].

Definition no_pass : command := Pass None None.

End Canned.

(** ** Further vocabulary: chains, odd responses, conduct *)

Definition is_nan (x : pyfloat) : bool :=
  match x with
  | NaN => true
  | _ => false
  end.

(** A coordinate that is NaN or inside the inclusive range. *)
Definition accepted (lo hi : Z) (x : pyfloat) : bool :=
  is_nan x || in_range lo hi x.

(** The library calls of a runtime never raise [SystemExit] themselves. *)
Definition honest (rt : runtime) : Prop :=
  (forall n url code, urlopen_meets rt n url <> Raise (SystemExit code))
  /\ (forall body code, json_loads rt body <> Raise (SystemExit code)).

(** A result that is not the raising of [SystemExit]. *)
Definition no_exit {A} (r : result A) : Prop :=
  forall code, r <> Raise (SystemExit code).

(** A computation whose only [SystemExit] carries the code -1. *)
Definition exits_minus_one {A} (m : M A) : Prop :=
  forall s code s', m s = (Raise (SystemExit code), s') -> code = -1.

(** The state [s] with another list of requests. *)
Definition with_requests (rs : list Request) (s : state) : state :=
  {| stdout := stdout s; requests := rs |}.

(** A computation that neither reads nor changes the list of requests. *)
Definition blind {A} (m : M A) : Prop :=
  forall s rs,
    m (with_requests rs s) = (fst (m s), with_requests rs (snd (m s))).

(** The exception the row of a pass raises, if it raises one: that of the
    first access or conversion that fails. *)
Definition pass_row_failure (rt : runtime) (entry : pyobj) : option exc :=
  match getitem entry "duration" with
  | Raise e => Some e
  | Ret _ =>
      match getitem entry "risetime" with
      | Raise e => Some e
      | Ret r =>
          match py_int rt r with
          | Raise e => Some e
          | Ret t =>
              match fromtimestamp rt t with
              | None => Some OverflowError
              | Some _ => None
              end
          end
      end
  end.

(** The exception the row of a person raises, if it raises one. *)
Definition person_row_failure (entry : pyobj) : option exc :=
  match getitem entry "name" with
  | Raise e => Some e
  | Ret _ =>
      match getitem entry "craft" with
      | Raise e => Some e
      | Ret _ => None
      end
  end.

(** How a run ends when [e] is raised while the response is presented and
    [lines] are on the terminal: through [common_error] when the last
    [except] names the class of [e], in a traceback otherwise. *)
Definition ends_after (rt : runtime) (lines : list styled) (e : exc)
    (obj : pyobj) (url : Request) : termination * state :=
  match as_common e with
  | Some ce =>
      (Exited (-1),
       {| stdout := lines ++ [mkStyled (common_text rt ce obj) red false];
          requests := [url] |})
  | None => (Traceback e, {| stdout := lines; requests := [url] |})
  end.












(** A line that is not red. *)
Definition calm (line : styled) : Prop := fg line <> red.

(** The last line on the terminal is red. *)
Definition ends_in_red (s : state) : Prop :=
  exists lines line, stdout s = (lines ++ [line])%list /\ fg line = red.

(** A computation that, started with no red line on the terminal, prints a
    red line only to raise [SystemExit] right after it. *)
Definition red_means_exit {A} (m : M A) : Prop :=
  forall s,
    Forall calm (stdout s) ->
    match m s with
    | (Raise (SystemExit _), s') => ends_in_red s'
    | (_, s') => Forall calm (stdout s')
    end.

(** Responses off the beaten track. *)
Module Odd.

Definition failure_without_reason : pyobj :=
  PyDict [("message", PyStr "failure")].

Definition no_message : pyobj :=
  PyDict [("timestamp", PyInt 1690000000)].

(** A passing response that announces [passes] passes and has no
    [response] at all. *)
Definition passing_without_response (passes : pyobj) : pyobj :=
  PyDict [("message", PyStr "success");
          ("request", PyDict [("latitude", PyFloat (float_of_Z 0));
                              ("longitude", PyFloat (float_of_Z 0));
                              ("passes", passes)])].

Definition people_without_people (number : pyobj) : pyobj :=
  PyDict [("message", PyStr "success"); ("number", number)].

(** A pass without rise time. *)
Definition pass_without_risetime : pyobj :=
  PyDict [("duration", PyInt 301)].





Definition far_future : pyobj :=
  PyDict [("message", PyStr "success");
          ("timestampss", PyInt 253402300800);
          ("iss_position", PyDict [("latitude", PyStr "10.1");
                                   ("longitude", PyStr "-20.2")])].

End Odd.

(** ** The helpers on known values *)

Example rjust_pads : rjust 20 "600" = "                 600".
Proof. reflexivity. Qed.

Example rjust_never_truncates :
  rjust 20 "a name of more than twenty characters"
  = "a name of more than twenty characters".
Proof. reflexivity. Qed.

Example str_of_Z_signed : map str_of_Z [0; 7; -12] = ["0"; "7"; "-12"].
Proof. reflexivity. Qed.

Example quote_plus_escapes : quote_plus "1e+16 a/b" = "1e%2B16+a%2Fb".
Proof. reflexivity. Qed.

Example float_comparisons_with_nan :
  (float_lt NaN (float_of_Z (-80)), float_gt NaN (float_of_Z 80),
   float_le (float_of_Z (-80)) NaN, float_le NaN (float_of_Z 80))
  = (false, false, false, false).
Proof. reflexivity. Qed.

Example float_comparisons_at_the_bounds :
  (float_lt (float_of_Z (-80)) (float_of_Z (-80)),
   float_gt (float_of_Z 80) (float_of_Z 80),
   float_lt (Finite (-801 # 10)) (float_of_Z (-80)),
   float_gt PosInf (float_of_Z 80), float_lt NegInf (float_of_Z (-80)))
  = (false, false, true, true, true).
Proof. reflexivity. Qed.

Example utc_times :
  map Sample.utc_fromtimestamp
      [1690000000; 0; -1; 951782400; 253402300800]
  = [Some "2023-07-22 04:26:40"; Some "1970-01-01 00:00:00";
     Some "1969-12-31 23:59:59"; Some "2000-02-29 00:00:00"; None].
Proof. reflexivity. Qed.

Example ascii_int_accepts :
  map Sample.ascii_int ["12"; " 12 "; "+12"; "-1_2"; "-0"]
  = [Some 12; Some 12; Some 12; Some (-12); Some 0].
Proof. reflexivity. Qed.

Example ascii_int_refuses :
  map Sample.ascii_int ["1__2"; "_1"; "1_"; ""; "+"; "1.5"; "- 1"; "soon"]
  = [None; None; None; None; None; None; None; None].
Proof. reflexivity. Qed.

Example decimal_reprs :
  map Sample.decimal_repr
      [Finite (101 # 10); Finite (-335 # 10); float_of_Z 0; NaN; PosInf]
  = ["10.1"; "-33.5"; "0.0"; "nan"; "inf"].
Proof. reflexivity. Qed.

Example passing_url :
  full_url (command_request (Sample.unreachable "")
              (Pass (Some (Finite (-335 # 10))) None))
  = "http://api.open-notify.org/iss-pass.json?lat=-33.5&lon=0.0".
Proof. reflexivity. Qed.

Example int_of_values :
  map (py_int (Sample.unreachable ""))
      [PyInt 3; PyBool true; PyFloat (Finite (-19 # 10)); PyStr " 42 ";
       PyStr "soon"; PyNone; PyFloat NaN; PyFloat PosInf; PyList []]
  = [Ret 3; Ret 1; Ret (-1); Ret 42; Raise ValueError;
     Raise (TypeError (IntArgument "NoneType")); Raise ValueError;
     Raise OverflowError; Raise (TypeError (IntArgument "list"))].
Proof. reflexivity. Qed.

Example subscripts :
  (getitem (PyDict [("a", PyInt 1)]) "a", getitem (PyDict []) "a",
   getitem (PyList []) "a", getitem PyNone "a",
   getindex (PyList [PyInt 1]) 0, getindex (PyList [PyInt 1]) 1,
   getindex (PyStr "ab") 1, getindex (PyDict []) 0)
  = (Ret (PyInt 1), Raise (KeyError (PyStr "a")),
     Raise (TypeError (BadIndices "list" "str")),
     Raise (TypeError (NotSubscriptable "NoneType")),
     Ret (PyInt 1), Raise IndexError, Ret (PyStr "b"),
     Raise (KeyError (PyInt 0))).
Proof. reflexivity. Qed.

Example repr_of_a_response :
  py_str (Sample.unreachable "") Canned.unknown = "{'message': 'error'}".
Proof. reflexivity. Qed.

(** ** From a command to its pipeline *)

Section Pipeline.

Variable rt : runtime.

Lemma float_le_not_lt x y : float_le x y = true -> float_lt y x = false.
Proof.
  destruct x, y; simpl; try reflexivity; try discriminate.
  intros H. now apply negb_true_iff in H.
Qed.

Lemma in_range_not_beyond lo hi x :
  in_range lo hi x = true -> beyond lo hi x = false.
Proof.
  unfold in_range, beyond. intros H.
  apply andb_true_iff in H. destruct H as [H1 H2].
  now rewrite (float_le_not_lt _ _ H1), (float_le_not_lt _ _ H2).
Qed.

Lemma invoke_pipeline (c : command) (s : state) :
  passes_validation c = true ->
  invoke rt c s = pipeline rt (command_request rt c) (command_body rt c) s.
Proof.
  destruct c as [|lat lon|]; intros H; try reflexivity.
  unfold passes_validation in H.
  apply andb_true_iff in H. destruct H as [H1 H2].
  apply negb_true_iff in H1, H2. unfold beyond in H1, H2.
  unfold invoke, make_passing, call_classmethod, passing, float_gt.
  unfold bind at 1. rewrite H1. cbv beta iota delta [ret].
  unfold bind at 1. rewrite H2. reflexivity.
Qed.

Lemma invoke_rejected (lat lon : option pyfloat) (s : state) :
  passes_validation (Pass lat lon) = false ->
  invoke rt (Pass lat lon) s =
  (Raise (SystemExit (-1)),
   emit [style rt
           (if beyond (-80) 80 (option_value lat)
            then "Latitude must be number between -80.0 and 80.0"
            else "Longitude must be number between -180.0 and 180.0")
           red false] s).
Proof.
  intros H.
  unfold invoke, make_passing, call_classmethod, passing, float_gt.
  unfold passes_validation, beyond in *.
  destruct (float_lt (option_value lat) (float_of_Z (-80))
            || float_lt (float_of_Z 80) (option_value lat)) eqn:E1.
  - reflexivity.
  - cbn [negb andb] in H. apply negb_false_iff in H.
    unfold bind at 1. cbv beta iota delta [ret].
    unfold bind at 1. rewrite H. reflexivity.
Qed.

(** *** Fetching and parsing *)

Lemma pipeline_URLError url body s reason :
  urlopen_meets rt (List.length (requests s)) url = Raise (URLError reason) ->
  pipeline rt url body s =
  (Raise (SystemExit (-1)), emit [style rt reason red false] (requested url s)).
Proof.
  intros H. unfold pipeline, fetch, bind, try_except, urlopen.
  rewrite H. reflexivity.
Qed.

Lemma pipeline_parse url body s response :
  urlopen_meets rt (List.length (requests s)) url = Ret response ->
  pipeline rt url body s =
  (obj <- parse rt response ;;
   try_except (body obj url) as_common (fun ce => common_error rt ce obj))%py
    (requested url s).
Proof.
  intros H. unfold pipeline, fetch, try_except, urlopen.
  unfold bind at 1. rewrite H. reflexivity.
Qed.

Lemma pipeline_JSONDecodeError url body s response msg doc pos lineno colno :
  urlopen_meets rt (List.length (requests s)) url = Ret response ->
  json_loads rt (read response) = Raise (JSONDecodeError msg doc pos lineno colno) ->
  pipeline rt url body s =
  (Raise (SystemExit (-1)),
   emit [style rt msg red false; style rt doc red false;
         style rt (PyInt pos) red false; style rt (PyInt lineno) red false;
         style rt (PyInt colno) red false] (requested url s)).
Proof.
  intros H1 H2. rewrite (pipeline_parse _ _ _ _ H1).
  unfold parse, bind, try_except, lift. rewrite H2.
  unfold emit. cbn. now rewrite <- !app_assoc.
Qed.

Lemma pipeline_parsed url body s response obj :
  urlopen_meets rt (List.length (requests s)) url = Ret response ->
  json_loads rt (read response) = Ret obj ->
  pipeline rt url body s =
  try_except (body obj url) as_common (fun ce => common_error rt ce obj)
             (requested url s).
Proof.
  intros H1 H2. rewrite (pipeline_parse _ _ _ _ H1).
  unfold parse, try_except, lift. unfold bind at 1. rewrite H2. reflexivity.
Qed.

(** An exception of [urlopen] or [json.loads] that no clause names goes up
    as it is. *)
Lemma pipeline_urlopen_raises url body s e :
  urlopen_meets rt (List.length (requests s)) url = Raise e ->
  as_URLError e = None ->
  pipeline rt url body s = (Raise e, requested url s).
Proof.
  intros H1 H2. unfold pipeline, fetch, bind, try_except, urlopen.
  rewrite H1, H2. reflexivity.
Qed.

Lemma pipeline_loads_raises url body s response e :
  urlopen_meets rt (List.length (requests s)) url = Ret response ->
  json_loads rt (read response) = Raise e ->
  as_JSONDecodeError e = None ->
  pipeline rt url body s = (Raise e, requested url s).
Proof.
  intros H1 H2 H3. rewrite (pipeline_parse _ _ _ _ H1).
  unfold parse, bind, try_except, lift. rewrite H2, H3. reflexivity.
Qed.

End Pipeline.

(** ** The presenters never touch the network *)

Section Frame.

Variable rt : runtime.

Lemma quiet_ret {A} (a : A) : quiet (ret a).
Proof. intros s. reflexivity. Qed.

Lemma quiet_raise {A} (e : exc) : quiet (@raise A e).
Proof. intros s. reflexivity. Qed.

Lemma quiet_exit {A} (code : Z) : quiet (@exit A code).
Proof. intros s. reflexivity. Qed.

Lemma quiet_lift {A} (r : result A) : quiet (lift r).
Proof. intros s. reflexivity. Qed.

Lemma quiet_echo (line : styled) : quiet (echo line).
Proof. intros s. reflexivity. Qed.

Lemma quiet_bind {A B} (m : M A) (k : A -> M B) :
  quiet m -> (forall a, quiet (k a)) -> quiet (bind m k).
Proof.
  intros Hm Hk s. unfold bind. specialize (Hm s).
  destruct (m s) as [[a | e] s']; simpl in *.
  - now rewrite Hk.
  - assumption.
Qed.

Lemma quiet_try_except {A X} (m : M A) (clause : exc -> option X)
    (h : X -> M A) :
  quiet m -> (forall x, quiet (h x)) -> quiet (try_except m clause h).
Proof.
  intros Hm Hh s. unfold try_except. specialize (Hm s).
  destruct (m s) as [[a | e] s']; simpl in *.
  - assumption.
  - destruct (clause e) as [x |]; simpl.
    + now rewrite Hh.
    + assumption.
Qed.

Lemma quiet_for {A} (xs : list A) (body : A -> M unit) :
  (forall x, quiet (body x)) -> quiet (for_ xs body).
Proof.
  intros Hb. induction xs as [| x xs IH]; simpl.
  - apply quiet_ret.
  - apply quiet_bind; [apply Hb | intros _; exact IH].
Qed.

Create HintDb quiet.
#[local] Hint Resolve quiet_ret quiet_raise quiet_exit quiet_lift quiet_echo
  quiet_bind quiet_try_except quiet_for : quiet.
#[local] Hint Extern 1 (quiet (if ?b then _ else _)) => destruct b : quiet.

Lemma quiet_message_error {A} obj url : quiet (@message_error rt A obj url).
Proof. unfold message_error. auto 10 with quiet. Qed.

Lemma quiet_common_error {A} ce obj : quiet (@common_error rt A ce obj).
Proof. unfold common_error. auto with quiet. Qed.

Lemma quiet_json_error {A} je : quiet (@json_error rt A je).
Proof. unfold json_error. auto 10 with quiet. Qed.

#[local] Hint Resolve quiet_message_error quiet_common_error
  quiet_json_error : quiet.

Lemma quiet_command_body c obj url : quiet (command_body rt c obj url).
Proof.
  destruct c; simpl;
    unfold location_body, passing_body, passing_row, people_body, people_row;
    auto 30 with quiet.
Qed.

Lemma quiet_parse response : quiet (parse rt response).
Proof. unfold parse. auto with quiet. Qed.

Lemma sends_fetch url : sends url (fetch rt url).
Proof.
  intros s. unfold fetch, try_except, urlopen.
  destruct (urlopen_meets rt (List.length (requests s)) url) as [r | e];
    simpl; [reflexivity |].
  destruct (as_URLError e); reflexivity.
Qed.

Lemma sends_bind {A B} url (m : M A) (k : A -> M B) :
  sends url m -> (forall a, quiet (k a)) -> sends url (bind m k).
Proof.
  intros Hm Hk s. unfold bind. specialize (Hm s).
  destruct (m s) as [[a | e] s']; simpl in *.
  - now rewrite Hk.
  - assumption.
Qed.

Lemma sends_pipeline c :
  sends (command_request rt c)
        (pipeline rt (command_request rt c) (command_body rt c)).
Proof.
  unfold pipeline. apply sends_bind; [apply sends_fetch |].
  intros response. apply quiet_bind; [apply quiet_parse |].
  intros obj. apply quiet_try_except;
    [apply quiet_command_body | intros; apply quiet_common_error].
Qed.

(** *** From the entry point to the command *)

Lemma run_main_invoke (c : command) :
  run (main rt [c]) = run (invoke rt c).
Proof.
  unfold run, finish, main, cli, bind, exit, raise. simpl. unfold bind, ret.
  destruct (invoke rt c initial) as [[[] | e] s]; reflexivity.
Qed.

Lemma run_requests (m : M unit) :
  requests (snd (run m)) = requests (snd (m initial)).
Proof.
  unfold run, finish. destruct (m initial) as [[u | e] s]; [reflexivity |].
  destruct e; reflexivity.
Qed.

End Frame.

(** ** What the presenters print *)

Section Presenting.

Variable rt : runtime.

(** *** Stepping through a body *)

Lemma bind_lift_ret {A B} (a : A) (k : A -> M B) s :
  bind (lift (Ret a)) k s = k a s.
Proof. reflexivity. Qed.

Lemma bind_lift_raise {A B} (e : exc) (k : A -> M B) s :
  bind (lift (@Raise A e)) k s = (Raise e, s).
Proof. reflexivity. Qed.

Lemma bind_echo {B} (line : styled) (k : unit -> M B) s :
  bind (echo line) k s = k tt (emit [line] s).
Proof. reflexivity. Qed.

Lemma echo_emit (line : styled) s : echo line s = (Ret tt, emit [line] s).
Proof. reflexivity. Qed.

Lemma emit_emit (a b : list styled) s : emit b (emit a s) = emit (a ++ b) s.
Proof. unfold emit. simpl. now rewrite app_assoc. Qed.

Lemma emit_nil s : emit [] s = s.
Proof. destruct s. unfold emit. simpl. now rewrite app_nil_r. Qed.

Lemma bind_ok {A B} (m : M A) (k : A -> M B) s a s' :
  m s = (Ret a, s') -> bind m k s = k a s'.
Proof. intros H. unfold bind. now rewrite H. Qed.

Lemma bind_raises {A B} (m : M A) (k : A -> M B) s e s' :
  m s = (Raise e, s') -> bind m k s = (Raise e, s').
Proof. intros H. unfold bind. now rewrite H. Qed.

(** *** The row loops *)

Lemma for_emits (row : nat -> M unit) (lines : list styled) :
  forall k s,
    (forall i l s', nth_error lines i = Some l ->
                    row (k + i)%nat s' = (Ret tt, emit [l] s')) ->
    for_ (seq k (List.length lines)) row s = (Ret tt, emit lines s).
Proof.
  induction lines as [| l ls IH]; intros k s H; simpl.
  - now rewrite emit_nil.
  - rewrite (bind_ok _ _ _ tt (emit [l] s)).
    + rewrite IH.
      * now rewrite emit_emit.
      * intros i l' s' Hi.
        replace (S k + i)%nat with (k + S i)%nat by lia. now apply H.
    + rewrite <- (Nat.add_0_r k) at 1. now apply H.
Qed.

Lemma for_emits_raises (row : nat -> M unit) (lines : list styled)
    (e : exc) :
  forall k n s,
    (forall i l s', nth_error lines i = Some l ->
                    row (k + i)%nat s' = (Ret tt, emit [l] s')) ->
    (forall s', row (k + List.length lines)%nat s' = (Raise e, s')) ->
    (List.length lines < n)%nat ->
    for_ (seq k n) row s = (Raise e, emit lines s).
Proof.
  induction lines as [| l ls IH]; intros k n s H He Hn; simpl in *.
  - destruct n as [| n]; [lia |]. simpl.
    rewrite emit_nil. apply bind_raises.
    rewrite <- (Nat.add_0_r k) at 1. apply He.
  - destruct n as [| n]; [lia |]. simpl.
    rewrite (bind_ok _ _ _ tt (emit [l] s)).
    + rewrite (IH (S k) n).
      * now rewrite emit_emit.
      * intros i l' s' Hi.
        replace (S k + i)%nat with (k + S i)%nat by lia. now apply H.
      * intros s'.
        replace (S k + List.length ls)%nat
          with (k + S (List.length ls))%nat by lia.
        apply He.
      * lia.
    + rewrite <- (Nat.add_0_r k) at 1. now apply H.
Qed.

Lemma Forall2_nth_row {A B} (R : A -> B -> Prop) (xs : list A)
    (ys : list B) :
  Forall2 R xs ys ->
  forall i y, nth_error ys i = Some y ->
              exists x, nth_error xs i = Some x /\ R x y.
Proof.
  induction 1 as [| x y xs ys Hxy _ IH]; intros i y' Hi.
  - destruct i; discriminate.
  - destruct i as [| i]; simpl in *.
    + injection Hi as <-. now exists x.
    + now apply IH.
Qed.

Lemma Forall2_same_length {A B} (R : A -> B -> Prop) (xs : list A)
    (ys : list B) :
  Forall2 R xs ys -> List.length xs = List.length ys.
Proof. induction 1; simpl; congruence. Qed.

Lemma passing_row_shows obj entries x entry line s :
  Ret obj @: "response" = Ret (PyList entries) ->
  nth_error entries x = Some entry ->
  pass_row rt entry = Some line ->
  passing_row rt obj x s = (Ret tt, emit [line] s).
Proof.
  intros Hr Hx Hrow. unfold passing_row, pass_row in *.
  rewrite Hr. unfold sub_index, getindex. rewrite Hx. unfold sub_key.
  destruct (getitem entry "duration") as [d | ]; [| discriminate].
  destruct (getitem entry "risetime") as [r | ]; [| discriminate].
  rewrite bind_lift_ret, bind_lift_ret.
  destruct (py_int rt r) as [t | ]; [| discriminate].
  rewrite bind_lift_ret. unfold datetime_fromtimestamp.
  destruct (fromtimestamp rt t) as [rs | ]; [| discriminate].
  rewrite bind_lift_ret. injection Hrow as <-. reflexivity.
Qed.

Lemma passing_row_past_end obj entries x s :
  Ret obj @: "response" = Ret (PyList entries) ->
  nth_error entries x = None ->
  passing_row rt obj x s = (Raise IndexError, s).
Proof.
  intros Hr Hx. unfold passing_row. rewrite Hr.
  unfold sub_index, getindex. rewrite Hx. reflexivity.
Qed.

Lemma people_row_shows obj entries i entry line s :
  Ret obj @: "people" = Ret (PyList entries) ->
  nth_error entries i = Some entry ->
  person_row rt entry = Some line ->
  people_row rt obj i s = (Ret tt, emit [line] s).
Proof.
  intros Hr Hx Hrow. unfold people_row, person_row in *.
  rewrite Hr. unfold sub_index, getindex. rewrite Hx. unfold sub_key.
  destruct (getitem entry "name") as [n | ]; [| discriminate].
  destruct (getitem entry "craft") as [c | ]; [| discriminate].
  rewrite bind_lift_ret, bind_lift_ret. injection Hrow as <-. reflexivity.
Qed.

Lemma people_row_past_end obj entries i s :
  Ret obj @: "people" = Ret (PyList entries) ->
  nth_error entries i = None ->
  people_row rt obj i s = (Raise IndexError, s).
Proof.
  intros Hr Hx. unfold people_row. rewrite Hr.
  unfold sub_index, getindex. rewrite Hx. reflexivity.
Qed.

End Presenting.

(** ** The bodies, case by case *)

Section Bodies.

Variable rt : runtime.

Lemma eq_str_same (s : string) : eq_str (PyStr s) s = true.
Proof. apply String.eqb_refl. Qed.

Lemma try_except_ok {A X} (m : M A) (clause : exc -> option X)
    (h : X -> M A) s a s' :
  m s = (Ret a, s') -> try_except m clause h s = (Ret a, s').
Proof. intros H. unfold try_except. now rewrite H. Qed.

Lemma try_except_caught {A X} (m : M A) (clause : exc -> option X)
    (h : X -> M A) s e x s' :
  m s = (Raise e, s') -> clause e = Some x ->
  try_except m clause h s = h x s'.
Proof. intros H1 H2. unfold try_except. now rewrite H1, H2. Qed.

Lemma try_except_passes {A X} (m : M A) (clause : exc -> option X)
    (h : X -> M A) s e s' :
  m s = (Raise e, s') -> clause e = None ->
  try_except m clause h s = (Raise e, s').
Proof. intros H1 H2. unfold try_except. now rewrite H1, H2. Qed.

Lemma common_error_exits {A} ce obj s :
  @common_error rt A ce obj s =
  (Raise (SystemExit (-1)), emit [style rt (common_text rt ce obj) red false] s).
Proof. reflexivity. Qed.

Lemma run_answered c obj :
  passes_validation c = true ->
  answers rt c obj ->
  run (main rt [c]) =
  finish (try_except (command_body rt c obj (command_request rt c)) as_common
            (fun ce => common_error rt ce obj)
            (requested (command_request rt c) initial)).
Proof.
  intros Hv [response [Hu Hj]].
  rewrite run_main_invoke. unfold run.
  rewrite (invoke_pipeline rt c initial Hv).
  now rewrite (pipeline_parsed rt _ _ initial response obj Hu Hj).
Qed.

Lemma location_body_success obj url s stamp t time la lo :
  Ret obj @: "message" = Ret (PyStr "success") ->
  Ret obj @: "timestampss" = Ret stamp ->
  py_int rt stamp = Ret t ->
  fromtimestamp rt t = Some time ->
  Ret obj @: "iss_position" @: "latitude" = Ret la ->
  Ret obj @: "iss_position" @: "longitude" = Ret lo ->
  location_body rt obj url s = (Ret tt, emit (location_lines rt time la lo) s).
Proof.
  intros Hm Hs Ht Hd Hla Hlo. unfold location_body.
  rewrite Hm, bind_lift_ret, eq_str_same.
  rewrite Hs, bind_lift_ret, Ht, bind_lift_ret.
  unfold datetime_fromtimestamp. rewrite Hd, bind_lift_ret.
  rewrite Hla, bind_lift_ret, Hlo, bind_lift_ret.
  rewrite !bind_echo, echo_emit, !emit_emit. reflexivity.
Qed.

Lemma passing_body_success obj url s la lo passes entries rows :
  passing_response rt obj la lo passes entries ->
  Z.of_nat (List.length entries) = passes ->
  Forall2 (fun e l => pass_row rt e = Some l) entries rows ->
  passing_body rt obj url s =
  (Ret tt, emit (passing_header rt la lo passes ++ rows ++ [closing rt]) s).
Proof.
  intros [Hm Hla Hlo [p [Hp Hn]] Hr] Hlen Hrows. unfold passing_body.
  rewrite Hm, bind_lift_ret, eq_str_same.
  unfold bind at 1.
  rewrite Hla, bind_lift_ret, Hlo, bind_lift_ret, Hp, bind_lift_ret.
  rewrite Hn, bind_lift_ret, !bind_echo.
  unfold range.
  replace (Z.to_nat passes) with (List.length rows)
    by (rewrite <- (Forall2_same_length _ _ _ Hrows); lia).
  rewrite for_emits.
  - rewrite echo_emit, !emit_emit. reflexivity.
  - intros i l s' Hi.
    destruct (Forall2_nth_row _ _ _ Hrows i l Hi) as [e [He Hl]].
    now apply (passing_row_shows rt obj entries i e l s').
Qed.

Lemma passing_body_short obj url s la lo passes entries rows :
  passing_response rt obj la lo passes entries ->
  Z.of_nat (List.length entries) < passes ->
  Forall2 (fun e l => pass_row rt e = Some l) entries rows ->
  passing_body rt obj url s =
  (Raise IndexError, emit (passing_header rt la lo passes ++ rows) s).
Proof.
  intros [Hm Hla Hlo [p [Hp Hn]] Hr] Hlen Hrows. unfold passing_body.
  rewrite Hm, bind_lift_ret, eq_str_same.
  unfold bind at 1.
  rewrite Hla, bind_lift_ret, Hlo, bind_lift_ret, Hp, bind_lift_ret.
  rewrite Hn, bind_lift_ret, !bind_echo.
  unfold range.
  pose proof (Forall2_same_length _ _ _ Hrows) as Hsame.
  rewrite (for_emits_raises _ rows IndexError).
  - rewrite !emit_emit. reflexivity.
  - intros i l s' Hi.
    destruct (Forall2_nth_row _ _ _ Hrows i l Hi) as [e [He Hl]].
    now apply (passing_row_shows rt obj entries i e l s').
  - intros s'. apply (passing_row_past_end rt obj entries); [exact Hr |].
    apply nth_error_None. simpl. lia.
  - lia.
Qed.

Lemma people_body_success obj url s number entries rows :
  people_response rt obj number entries ->
  Z.of_nat (List.length entries) = number ->
  Forall2 (fun e l => person_row rt e = Some l) entries rows ->
  people_body rt obj url s =
  (Ret tt, emit (people_header rt ++ rows ++ [closing rt]) s).
Proof.
  intros [Hm [n [Hn Hi]] Hp] Hlen Hrows. unfold people_body.
  rewrite Hm, bind_lift_ret, eq_str_same.
  unfold bind at 1.
  rewrite Hn, bind_lift_ret, Hi, bind_lift_ret, !bind_echo.
  unfold range.
  replace (Z.to_nat number) with (List.length rows)
    by (rewrite <- (Forall2_same_length _ _ _ Hrows); lia).
  rewrite for_emits.
  - rewrite echo_emit, !emit_emit. reflexivity.
  - intros i l s' Hl.
    destruct (Forall2_nth_row _ _ _ Hrows i l Hl) as [e [He Hrow]].
    now apply (people_row_shows rt obj entries i e l s').
Qed.

Lemma people_body_short obj url s number entries rows :
  people_response rt obj number entries ->
  Z.of_nat (List.length entries) < number ->
  Forall2 (fun e l => person_row rt e = Some l) entries rows ->
  people_body rt obj url s =
  (Raise IndexError, emit (people_header rt ++ rows) s).
Proof.
  intros [Hm [n [Hn Hi]] Hp] Hlen Hrows. unfold people_body.
  rewrite Hm, bind_lift_ret, eq_str_same.
  unfold bind at 1.
  rewrite Hn, bind_lift_ret, Hi, bind_lift_ret, !bind_echo.
  unfold range.
  pose proof (Forall2_same_length _ _ _ Hrows) as Hsame.
  rewrite (for_emits_raises _ rows IndexError).
  - rewrite !emit_emit. reflexivity.
  - intros i l s' Hl.
    destruct (Forall2_nth_row _ _ _ Hrows i l Hl) as [e [He Hrow]].
    now apply (people_row_shows rt obj entries i e l s').
  - intros s'. apply (people_row_past_end rt obj entries); [exact Hp |].
    apply nth_error_None. simpl. lia.
  - lia.
Qed.

Lemma message_error_failure {A} obj url s reason :
  Ret obj @: "message" = Ret (PyStr "failure") ->
  Ret obj @: "reason" = Ret reason ->
  @message_error rt A obj url s =
  (Raise (SystemExit (-1)), emit [style rt (py_str rt reason) red false] s).
Proof.
  intros Hm Hr. unfold message_error.
  rewrite Hm, bind_lift_ret, eq_str_same.
  unfold bind at 1. now rewrite Hr, bind_lift_ret, echo_emit.
Qed.

Lemma message_error_unknown {A} obj r s m :
  Ret obj @: "message" = Ret m ->
  eq_str m "failure" = false ->
  @message_error rt A obj (UrlRequest r) s =
  (Raise (TypeError (ConcatNonStr "Request")), s).
Proof.
  intros Hm Hf. unfold message_error.
  rewrite Hm, bind_lift_ret, Hf. reflexivity.
Qed.

Lemma body_not_success c obj url s m e s' :
  Ret obj @: "message" = Ret m ->
  eq_str m "success" = false ->
  @message_error rt unit obj (UrlRequest url) s = (Raise e, s') ->
  command_body rt c obj url s = (Raise e, s').
Proof.
  intros Hm Hs He.
  destruct c; unfold command_body, location_body, passing_body, people_body;
    rewrite Hm, bind_lift_ret, Hs;
    [exact He | now apply bind_raises | now apply bind_raises].
Qed.

Lemma getitem_raises_common o k e :
  getitem o k = Raise e -> exists ce, as_common e = Some ce.
Proof.
  destruct o; simpl; try (intros H; injection H as <-; eexists; reflexivity).
  destruct (lookup k items); [discriminate |].
  intros H; injection H as <-; eexists; reflexivity.
Qed.

Lemma message_error_exits obj url s m :
  Ret obj @: "message" = Ret m ->
  exists e s',
    @message_error rt unit obj (UrlRequest url) s = (Raise e, s')
    /\ (e = SystemExit (-1) \/ exists ce, as_common e = Some ce).
Proof.
  intros Hm. destruct (eq_str m "failure") eqn:Hf.
  - destruct m as [| | | | f | |]; try discriminate.
    apply String.eqb_eq in Hf. subst f.
    destruct (Ret obj @: "reason") as [reason | e] eqn:Hr.
    + exists (SystemExit (-1)). eexists. split; [| now left].
      exact (message_error_failure obj (UrlRequest url) s reason Hm Hr).
    + exists e, s. split.
      * unfold message_error. rewrite Hm, bind_lift_ret, eq_str_same.
        unfold bind at 1. now rewrite Hr.
      * right. now apply (getitem_raises_common obj "reason").
  - exists (TypeError (ConcatNonStr "Request")), s. split.
    + now apply message_error_unknown with (m := m).
    + right. eexists. reflexivity.
Qed.

End Bodies.

Section OddResponses.

Variable rt : runtime.

Lemma body_message_raises c obj url s e :
  Ret obj @: "message" = Raise e ->
  command_body rt c obj url s = (Raise e, s).
Proof.
  intros Hm.
  destruct c; unfold command_body, location_body, passing_body, people_body;
    now rewrite Hm.
Qed.

Lemma nth_error_firstn_some {A} (n : nat) (l : list A) i x :
  nth_error (firstn n l) i = Some x -> nth_error l i = Some x.
Proof.
  revert l i. induction n as [| n IH]; intros l i H.
  - destruct i; discriminate.
  - destruct l as [| y l]; [destruct i; discriminate |].
    destruct i as [| i]; simpl in *; [assumption | now apply IH].
Qed.

Lemma rows_of_firstn {R : pyobj -> styled -> Prop} n entries rows :
  Forall2 R (firstn n entries) rows ->
  forall i l, nth_error rows i = Some l ->
              exists e, nth_error entries i = Some e /\ R e l.
Proof.
  intros H i l Hi.
  destruct (Forall2_nth_row _ _ _ H i l Hi) as [e [He Hr]].
  exists e. split; [now apply (nth_error_firstn_some n) | assumption].
Qed.

Lemma lift_no_exit_raise {A} (r : result A) e s s' :
  lift r s = (Raise e, s') -> r = Raise e /\ s' = s.
Proof. unfold lift. intros H. injection H as -> ->. now split. Qed.

Lemma passing_row_fails obj entries x entry e s :
  Ret obj @: "response" = Ret (PyList entries) ->
  nth_error entries x = Some entry ->
  pass_row_failure rt entry = Some e ->
  passing_row rt obj x s = (Raise e, s).
Proof.
  intros Hr Hx Hf. unfold passing_row, pass_row_failure in *.
  rewrite Hr. unfold sub_index, getindex. rewrite Hx. unfold sub_key.
  destruct (getitem entry "duration") as [d | e1];
    [| injection Hf as <-; reflexivity].
  rewrite bind_lift_ret.
  destruct (getitem entry "risetime") as [r | e2];
    [| injection Hf as <-; reflexivity].
  rewrite bind_lift_ret.
  destruct (py_int rt r) as [t | e3]; [| injection Hf as <-; reflexivity].
  rewrite bind_lift_ret. unfold datetime_fromtimestamp.
  destruct (fromtimestamp rt t) as [rs |]; [discriminate |].
  injection Hf as <-. reflexivity.
Qed.

Lemma people_row_fails obj entries i entry e s :
  Ret obj @: "people" = Ret (PyList entries) ->
  nth_error entries i = Some entry ->
  person_row_failure entry = Some e ->
  people_row rt obj i s = (Raise e, s).
Proof.
  intros Hr Hx Hf. unfold people_row, person_row_failure in *.
  rewrite Hr. unfold sub_index, getindex. rewrite Hx. unfold sub_key.
  destruct (getitem entry "name") as [n | e1];
    [| injection Hf as <-; reflexivity].
  rewrite bind_lift_ret.
  destruct (getitem entry "craft") as [c | e2];
    [discriminate | injection Hf as <-; reflexivity].
Qed.

Lemma getitem_no_exit o k : no_exit (getitem o k).
Proof.
  intros code. destruct o; simpl; try discriminate.
  destruct (lookup k items); discriminate.
Qed.

Lemma py_int_no_exit o : no_exit (py_int rt o).
Proof.
  intros code. destruct o as [| b | n | f | s | l | kv]; simpl;
    try discriminate.
  - destruct f; discriminate.
  - destruct (int_of_text rt s); discriminate.
Qed.

Lemma pass_row_failure_no_exit entry e :
  pass_row_failure rt entry = Some e -> forall code, e <> SystemExit code.
Proof.
  unfold pass_row_failure. intros H code ->.
  destruct (getitem entry "duration") as [d | e1] eqn:Hd.
  - destruct (getitem entry "risetime") as [r | e2] eqn:Hr.
    + destruct (py_int rt r) as [t | e3] eqn:Ht.
      * destruct (fromtimestamp rt t); discriminate.
      * injection H as ->. now apply (py_int_no_exit r code).
    + injection H as ->. now apply (getitem_no_exit entry "risetime" code).
  - injection H as ->. now apply (getitem_no_exit entry "duration" code).
Qed.

Lemma person_row_failure_no_exit entry e :
  person_row_failure entry = Some e -> forall code, e <> SystemExit code.
Proof.
  unfold person_row_failure. intros H code ->.
  destruct (getitem entry "name") as [n | e1] eqn:Hn.
  - destruct (getitem entry "craft") as [c | e2] eqn:Hc; [discriminate |].
    injection H as ->. now apply (getitem_no_exit entry "craft" code).
  - injection H as ->. now apply (getitem_no_exit entry "name" code).
Qed.

(** The end of a run whose presenter raised [e] with [lines] printed. *)
Lemma finish_try_raises c obj e lines :
  (forall code, e <> SystemExit code) ->
  command_body rt c obj (command_request rt c)
               (requested (command_request rt c) initial)
  = (Raise e, emit lines (requested (command_request rt c) initial)) ->
  finish (try_except (command_body rt c obj (command_request rt c)) as_common
            (fun ce => common_error rt ce obj)
            (requested (command_request rt c) initial))
  = ends_after rt lines e obj (command_request rt c).
Proof.
  intros Hne Hb. unfold ends_after.
  destruct (as_common e) as [ce |] eqn:Hce.
  - rewrite (try_except_caught _ _ _ _ _ _ _ Hb Hce). reflexivity.
  - rewrite (try_except_passes _ _ _ _ _ _ Hb Hce).
    destruct e; try reflexivity. now destruct (Hne code).
Qed.

End OddResponses.

Section Counts.

Variable rt : runtime.

Lemma firstn_rows_length {R : pyobj -> styled -> Prop} (n : nat) entries rows :
  Forall2 R (firstn n entries) rows ->
  (n <= List.length entries)%nat ->
  List.length rows = n.
Proof.
  intros H Hn. rewrite <- (Forall2_same_length _ _ _ H).
  now apply firstn_length_le.
Qed.

Lemma passing_body_first_rows obj url s la lo passes entries rows :
  passing_response rt obj la lo passes entries ->
  passes <= Z.of_nat (List.length entries) ->
  Forall2 (fun e l => pass_row rt e = Some l)
          (firstn (Z.to_nat passes) entries) rows ->
  passing_body rt obj url s =
  (Ret tt, emit (passing_header rt la lo passes ++ rows ++ [closing rt]) s).
Proof.
  intros [Hm Hla Hlo [p [Hp Hn]] Hr] Hlen Hrows. unfold passing_body.
  rewrite Hm, bind_lift_ret, eq_str_same.
  unfold bind at 1.
  rewrite Hla, bind_lift_ret, Hlo, bind_lift_ret, Hp, bind_lift_ret.
  rewrite Hn, bind_lift_ret, !bind_echo.
  unfold range.
  rewrite <- (firstn_rows_length (Z.to_nat passes) entries rows Hrows)
    by lia.
  rewrite for_emits.
  - rewrite echo_emit, !emit_emit. reflexivity.
  - intros i l s' Hi.
    destruct (rows_of_firstn _ _ _ Hrows i l Hi) as [e [He Hl]].
    now apply (passing_row_shows rt obj entries i e l s').
Qed.

Lemma people_body_first_rows obj url s number entries rows :
  people_response rt obj number entries ->
  number <= Z.of_nat (List.length entries) ->
  Forall2 (fun e l => person_row rt e = Some l)
          (firstn (Z.to_nat number) entries) rows ->
  people_body rt obj url s =
  (Ret tt, emit (people_header rt ++ rows ++ [closing rt]) s).
Proof.
  intros [Hm [n [Hn Hi]] Hp] Hlen Hrows. unfold people_body.
  rewrite Hm, bind_lift_ret, eq_str_same.
  unfold bind at 1.
  rewrite Hn, bind_lift_ret, Hi, bind_lift_ret, !bind_echo.
  unfold range.
  rewrite <- (firstn_rows_length (Z.to_nat number) entries rows Hrows)
    by lia.
  rewrite for_emits.
  - rewrite echo_emit, !emit_emit. reflexivity.
  - intros i l s' Hl.
    destruct (rows_of_firstn _ _ _ Hrows i l Hl) as [e [He Hrow]].
    now apply (people_row_shows rt obj entries i e l s').
Qed.

Lemma passing_body_failing_row obj url s la lo passes entries rows k bad e :
  passing_response rt obj la lo passes entries ->
  Z.of_nat k < passes ->
  Forall2 (fun e l => pass_row rt e = Some l) (firstn k entries) rows ->
  nth_error entries k = Some bad ->
  pass_row_failure rt bad = Some e ->
  passing_body rt obj url s =
  (Raise e, emit (passing_header rt la lo passes ++ rows) s).
Proof.
  intros [Hm Hla Hlo [p [Hp Hn]] Hr] Hlen Hrows Hbad He.
  assert (Hk : (k < List.length entries)%nat)
    by (apply nth_error_Some; congruence).
  pose proof (firstn_rows_length k entries rows Hrows) as Hrk.
  unfold passing_body.
  rewrite Hm, bind_lift_ret, eq_str_same.
  unfold bind at 1.
  rewrite Hla, bind_lift_ret, Hlo, bind_lift_ret, Hp, bind_lift_ret.
  rewrite Hn, bind_lift_ret, !bind_echo.
  unfold range.
  rewrite (for_emits_raises _ rows e).
  - rewrite !emit_emit. reflexivity.
  - intros i l s' Hi.
    destruct (rows_of_firstn _ _ _ Hrows i l Hi) as [x [Hx Hl]].
    now apply (passing_row_shows rt obj entries i x l s').
  - intros s'. simpl. rewrite Hrk by lia.
    now apply (passing_row_fails rt obj entries k bad e s').
  - lia.
Qed.

Lemma people_body_failing_row obj url s number entries rows k bad e :
  people_response rt obj number entries ->
  Z.of_nat k < number ->
  Forall2 (fun e l => person_row rt e = Some l) (firstn k entries) rows ->
  nth_error entries k = Some bad ->
  person_row_failure bad = Some e ->
  people_body rt obj url s =
  (Raise e, emit (people_header rt ++ rows) s).
Proof.
  intros [Hm [n [Hn Hi]] Hp] Hlen Hrows Hbad He.
  assert (Hk : (k < List.length entries)%nat)
    by (apply nth_error_Some; congruence).
  pose proof (firstn_rows_length k entries rows Hrows) as Hrk.
  unfold people_body.
  rewrite Hm, bind_lift_ret, eq_str_same.
  unfold bind at 1.
  rewrite Hn, bind_lift_ret, Hi, bind_lift_ret, !bind_echo.
  unfold range.
  rewrite (for_emits_raises _ rows e).
  - rewrite !emit_emit. reflexivity.
  - intros i l s' Hl.
    destruct (rows_of_firstn _ _ _ Hrows i l Hl) as [x [Hx Hrow]].
    now apply (people_row_shows rt obj entries i x l s').
  - intros s'. simpl. rewrite Hrk by lia.
    now apply (people_row_fails rt obj entries k bad e s').
  - lia.
Qed.

End Counts.

Section Defects.

Variable rt : runtime.













End Defects.

(** ** The claims *)

(** C1 (as amended).  A latitude below -80.0 or above 80.0, or a longitude
    below -180.0 or above 180.0, given to the passing operation ends the
    process with [exit(-1)] after one validation message and without any
    request; a latitude and a longitude inside the inclusive ranges pass the
    checks and exactly the passing request is sent. *)
Theorem passing_validates_coordinates (rt : runtime) (lat lon : pyfloat) :
  (beyond (-80) 80 lat = true \/ beyond (-180) 180 lon = true ->
   run (main rt [Pass (Some lat) (Some lon)]) =
   (Exited (-1),
    {| stdout :=
         [style rt
            (if beyond (-80) 80 lat
             then "Latitude must be number between -80.0 and 80.0"
             else "Longitude must be number between -180.0 and 180.0")
            red false];
       requests := [] |}))
  /\ (in_range (-80) 80 lat = true -> in_range (-180) 180 lon = true ->
      requests (snd (run (main rt [Pass (Some lat) (Some lon)]))) =
      [mkRequest ("http://api.open-notify.org/iss-pass.json?"
                  ++ urlencode rt [("lat", lat); ("lon", lon)])]).
Proof.
  split.
  - intros H. rewrite run_main_invoke. unfold run.
    rewrite invoke_rejected; [reflexivity |].
    unfold passes_validation, option_value.
    destruct H as [H | H]; rewrite H; [reflexivity | apply andb_false_r].
  - intros Hlat Hlon.
    assert (Hv : passes_validation (Pass (Some lat) (Some lon)) = true).
    { unfold passes_validation, option_value.
      now rewrite (in_range_not_beyond _ _ _ Hlat),
                  (in_range_not_beyond _ _ _ Hlon). }
    rewrite run_main_invoke, run_requests.
    rewrite (invoke_pipeline rt _ initial Hv).
    apply (sends_pipeline rt (Pass (Some lat) (Some lon)) initial).
Qed.

Lemma passing_validates_coordinates_witness :
  run (main (Sample.unreachable "timed out")
            [Pass (Some (float_of_Z 45)) (Some (float_of_Z 200))]) =
  (Exited (-1),
   {| stdout := [{| text := "Longitude must be number between -180.0 and 180.0";
                    fg := red; bold := false |}];
      requests := [] |})
  /\ requests (snd (run (main (Sample.unreachable "timed out")
                          [Pass (Some (float_of_Z (-80)))
                                (Some (float_of_Z 180))]))) =
     [mkRequest "http://api.open-notify.org/iss-pass.json?lat=-80.0&lon=180.0"].
Proof.
  split.
  - apply (proj1 (passing_validates_coordinates
                    (Sample.unreachable "timed out")
                    (float_of_Z 45) (float_of_Z 200))).
    right. reflexivity.
  - apply (proj2 (passing_validates_coordinates
                    (Sample.unreachable "timed out")
                    (float_of_Z (-80)) (float_of_Z 180))); reflexivity.
Defined.

(** C1 as it is stated fails on NaN, which [--lat nan] delivers: NaN is not
    inside [-80.0, 80.0], yet neither comparison of the check holds and the
    request is sent. *)
Lemma nan_latitude_is_requested :
  in_range (-80) 80 NaN = false
  /\ requests (snd (run (main (Sample.unreachable "timed out")
                             [Pass (Some NaN) (Some (float_of_Z 0))]))) =
     [mkRequest "http://api.open-notify.org/iss-pass.json?lat=nan&lon=0.0"].
Proof. split; reflexivity. Qed.

(** C2.  A successful passing response that announces [passes] passes and
    carries as many entries is printed as the header followed by one row per
    entry, in the order of the array, each row made of the duration and of
    the rise time as a local time; a successful people response that
    announces [number] people and carries as many entries is printed as one
    row per entry, in order, each with the name and the craft. *)
Theorem rows_follow_the_response (rt : runtime) :
  (forall lat lon obj la lo passes entries rows,
      passes_validation (Pass lat lon) = true ->
      answers rt (Pass lat lon) obj ->
      passing_response rt obj la lo passes entries ->
      Z.of_nat (List.length entries) = passes ->
      Forall2 (fun e l => pass_row rt e = Some l) entries rows ->
      run (main rt [Pass lat lon]) =
      (Exited 0,
       {| stdout := passing_header rt la lo passes ++ rows ++ [closing rt];
          requests := [command_request rt (Pass lat lon)] |})
      /\ Z.of_nat (List.length rows) = passes)
  /\ (forall obj number entries rows,
      answers rt People obj ->
      people_response rt obj number entries ->
      Z.of_nat (List.length entries) = number ->
      Forall2 (fun e l => person_row rt e = Some l) entries rows ->
      run (main rt [People]) =
      (Exited 0,
       {| stdout := people_header rt ++ rows ++ [closing rt];
          requests := [command_request rt People] |})
      /\ Z.of_nat (List.length rows) = number).
Proof.
  split.
  - intros lat lon obj la lo passes entries rows Hv Ha Hr Hlen Hrows. split.
    + rewrite (run_answered rt _ obj Hv Ha).
      erewrite try_except_ok
        by (eapply passing_body_success; eassumption).
      reflexivity.
    + now rewrite <- (Forall2_same_length _ _ _ Hrows).
  - intros obj number entries rows Ha Hr Hlen Hrows. split.
    + rewrite (run_answered rt People obj eq_refl Ha).
      erewrite try_except_ok
        by (eapply people_body_success; eassumption).
      reflexivity.
    + now rewrite <- (Forall2_same_length _ _ _ Hrows).
Qed.

Lemma rows_follow_the_response_witness :
  (run (main (Sample.serving_json
                (Canned.passing_of 2 [Canned.pass1; Canned.pass2]))
             [Canned.no_pass]) =
   (Exited 0,
    {| stdout :=
         passing_header
           (Sample.serving_json
              (Canned.passing_of 2 [Canned.pass1; Canned.pass2]))
           (PyFloat (float_of_Z 0)) (PyFloat (float_of_Z 0)) 2
         ++ [mkStyled "|                  600 |  2023-07-22 04:26:40|"
                      green false;
             mkStyled "|                  545 |  2023-07-22 06:03:20|"
                      green false]
         ++ [mkStyled separator green false];
       requests :=
         [mkRequest "http://api.open-notify.org/iss-pass.json?lat=0.0&lon=0.0"]
    |})
   /\ Z.of_nat 2 = 2)
  /\ (run (main (Sample.serving_json (Canned.people_of 3 Canned.crew))
                [People]) =
      (Exited 0,
       {| stdout :=
            people_header (Sample.serving_json (Canned.people_of 3 Canned.crew))
            ++ [mkStyled "|        Chris Cassidy |                  ISS|"
                         green false;
                mkStyled "|    Anatoly Ivanishin |                  ISS|"
                         green false;
                mkStyled "|          Ivan Vagner |                  ISS|"
                         green false]
            ++ [mkStyled separator green false];
          requests := [mkRequest "http://api.open-notify.org/astros.json"] |})
      /\ Z.of_nat 3 = 3).
Proof.
  split.
  - refine (proj1 (rows_follow_the_response
                     (Sample.serving_json
                        (Canned.passing_of 2 [Canned.pass1; Canned.pass2])))
                  None None
                  (Canned.passing_of 2 [Canned.pass1; Canned.pass2])
                  (PyFloat (float_of_Z 0)) (PyFloat (float_of_Z 0)) 2
                  [Canned.pass1; Canned.pass2]
                  [mkStyled "|                  600 |  2023-07-22 04:26:40|"
                            green false;
                   mkStyled "|                  545 |  2023-07-22 06:03:20|"
                            green false] _ _ _ _ _).
    + reflexivity.
    + eexists. split; reflexivity.
    + constructor; try reflexivity. eexists. split; reflexivity.
    + reflexivity.
    + repeat constructor.
  - refine (proj2 (rows_follow_the_response
                     (Sample.serving_json (Canned.people_of 3 Canned.crew)))
                  (Canned.people_of 3 Canned.crew) 3 Canned.crew
                  [mkStyled "|        Chris Cassidy |                  ISS|"
                            green false;
                   mkStyled "|    Anatoly Ivanishin |                  ISS|"
                            green false;
                   mkStyled "|          Ivan Vagner |                  ISS|"
                            green false] _ _ _ _).
    + eexists. split; reflexivity.
    + constructor; try reflexivity. eexists. split; reflexivity.
    + reflexivity.
    + repeat constructor.
Defined.

(** C3.  When the parsed location response reports success, the time is
    read from the field [timestampss], converted with [int] and then to
    local calendar time, and printed together with the latitude and the
    longitude found under [iss_position]. *)
Theorem location_prints_timestampss (rt : runtime)
    (obj stamp la lo : pyobj) (t : Z) (time : string) :
  answers rt Loc obj ->
  Ret obj @: "message" = Ret (PyStr "success") ->
  Ret obj @: "timestampss" = Ret stamp ->
  py_int rt stamp = Ret t ->
  fromtimestamp rt t = Some time ->
  Ret obj @: "iss_position" @: "latitude" = Ret la ->
  Ret obj @: "iss_position" @: "longitude" = Ret lo ->
  run (main rt [Loc]) =
  (Exited 0,
   {| stdout :=
        [mkStyled (nl ++ "The ISS current location") bright_white true;
         mkStyled (nl ++ "Time:      " ++ time) green false;
         mkStyled ("Latitude:  " ++ py_str rt la) green false;
         mkStyled ("Longitude: " ++ py_str rt lo) green false];
      requests := [mkRequest "http://api.open-notify.org/iss-now.json"] |}).
Proof.
  intros Ha Hm Hs Ht Hd Hla Hlo.
  rewrite (run_answered rt Loc obj eq_refl Ha).
  erewrite try_except_ok
    by (eapply location_body_success; eassumption).
  reflexivity.
Qed.

Lemma location_prints_timestampss_witness :
  run (main (Sample.serving_json Canned.location_ok) [Loc]) =
  (Exited 0,
   {| stdout :=
        [mkStyled (nl ++ "The ISS current location") bright_white true;
         mkStyled (nl ++ "Time:      " ++ "2023-07-22 04:26:40") green false;
         mkStyled ("Latitude:  " ++ "10.1") green false;
         mkStyled ("Longitude: " ++ "-20.2") green false];
      requests := [mkRequest "http://api.open-notify.org/iss-now.json"] |}).
Proof.
  refine (location_prints_timestampss
            (Sample.serving_json Canned.location_ok) Canned.location_ok
            (PyInt 1690000000) (PyStr "10.1") (PyStr "-20.2") 1690000000
            "2023-07-22 04:26:40" _ _ _ _ _ _ _).
  - eexists. split; reflexivity.
  - reflexivity.
  - reflexivity.
  - reflexivity.
  - reflexivity.
  - reflexivity.
  - reflexivity.
Defined.

(** The time is not looked for under [timestamp], the name the live
    service uses: such a response ends in the common error for the key
    [timestampss]. *)
Lemma location_ignores_timestamp :
  run (main (Sample.serving_json Canned.location_live) [Loc]) =
  (Exited (-1),
   {| stdout :=
        [mkStyled
           ("Common error." ++ nl ++ "Error type: KeyError" ++ nl
            ++ "Error: 'timestampss'" ++ nl ++ "Data: "
            ++ py_str (Sample.serving_json Canned.location_live)
                      Canned.location_live) red false];
      requests := [mkRequest "http://api.open-notify.org/iss-now.json"] |}).
Proof. reflexivity. Qed.

(** C9.  When a successful passing response announces more passes than its
    array holds (the entries it holds being well formed), the row loop
    prints the rows there are and then indexes past the end; the
    [IndexError] is none of the classes the last [except] names, so the
    process ends in a traceback and not through [common_error].  The same
    holds of a people response that announces more people than it lists. *)
Theorem short_array_escapes_the_handler (rt : runtime) :
  as_common IndexError = None
  /\ (forall lat lon obj la lo passes entries rows,
      passes_validation (Pass lat lon) = true ->
      answers rt (Pass lat lon) obj ->
      passing_response rt obj la lo passes entries ->
      Z.of_nat (List.length entries) < passes ->
      Forall2 (fun e l => pass_row rt e = Some l) entries rows ->
      run (main rt [Pass lat lon]) =
      (Traceback IndexError,
       {| stdout := passing_header rt la lo passes ++ rows;
          requests := [command_request rt (Pass lat lon)] |}))
  /\ (forall obj number entries rows,
      answers rt People obj ->
      people_response rt obj number entries ->
      Z.of_nat (List.length entries) < number ->
      Forall2 (fun e l => person_row rt e = Some l) entries rows ->
      run (main rt [People]) =
      (Traceback IndexError,
       {| stdout := people_header rt ++ rows;
          requests := [command_request rt People] |})).
Proof.
  split; [reflexivity |]. split.
  - intros lat lon obj la lo passes entries rows Hv Ha Hr Hlen Hrows.
    rewrite (run_answered rt _ obj Hv Ha).
    cbn [command_body].
    rewrite (try_except_passes _ _ _ _ _ _
               (passing_body_short rt obj _ _ la lo passes entries rows
                  Hr Hlen Hrows) eq_refl).
    reflexivity.
  - intros obj number entries rows Ha Hr Hlen Hrows.
    rewrite (run_answered rt People obj eq_refl Ha).
    cbn [command_body].
    rewrite (try_except_passes _ _ _ _ _ _
               (people_body_short rt obj _ _ number entries rows
                  Hr Hlen Hrows) eq_refl).
    reflexivity.
Qed.

Lemma short_array_escapes_the_handler_witness :
  run (main (Sample.serving_json (Canned.passing_of 2 [Canned.pass1]))
            [Canned.no_pass]) =
  (Traceback IndexError,
   {| stdout :=
        passing_header (Sample.serving_json (Canned.passing_of 2 [Canned.pass1]))
                       (PyFloat (float_of_Z 0)) (PyFloat (float_of_Z 0)) 2
        ++ [mkStyled "|                  600 |  2023-07-22 04:26:40|"
                     green false];
      requests :=
        [mkRequest "http://api.open-notify.org/iss-pass.json?lat=0.0&lon=0.0"]
   |})
  /\ run (main (Sample.serving_json (Canned.people_of 4 Canned.crew))
               [People]) =
     (Traceback IndexError,
      {| stdout :=
           people_header (Sample.serving_json (Canned.people_of 4 Canned.crew))
           ++ [mkStyled "|        Chris Cassidy |                  ISS|"
                        green false;
               mkStyled "|    Anatoly Ivanishin |                  ISS|"
                        green false;
               mkStyled "|          Ivan Vagner |                  ISS|"
                        green false];
         requests := [mkRequest "http://api.open-notify.org/astros.json"] |}).
Proof.
  split.
  - refine (proj1 (proj2 (short_array_escapes_the_handler
                            (Sample.serving_json
                               (Canned.passing_of 2 [Canned.pass1]))))
                  None None
                  (Canned.passing_of 2 [Canned.pass1])
                  (PyFloat (float_of_Z 0)) (PyFloat (float_of_Z 0)) 2
                  [Canned.pass1]
                  [mkStyled "|                  600 |  2023-07-22 04:26:40|"
                            green false] _ _ _ _ _).
    + reflexivity.
    + eexists. split; reflexivity.
    + constructor; try reflexivity. eexists. split; reflexivity.
    + reflexivity.
    + repeat constructor.
  - refine (proj2 (proj2 (short_array_escapes_the_handler
                            (Sample.serving_json
                               (Canned.people_of 4 Canned.crew))))
                  (Canned.people_of 4 Canned.crew) 4 Canned.crew
                  [mkStyled "|        Chris Cassidy |                  ISS|"
                            green false;
                   mkStyled "|    Anatoly Ivanishin |                  ISS|"
                            green false;
                   mkStyled "|          Ivan Vagner |                  ISS|"
                            green false] _ _ _ _).
    + eexists. split; reflexivity.
    + constructor; try reflexivity. eexists. split; reflexivity.
    + reflexivity.
    + repeat constructor.
Defined.

Lemma decode_error_is_reported_aux (rt : runtime) (c : command)
    (response : HTTPResponse) (msg doc : string) (pos lineno colno : Z) :
  passes_validation c = true ->
  urlopen_meets rt 0 (command_request rt c) = Ret response ->
  json_loads rt (read response) =
    Raise (JSONDecodeError msg doc pos lineno colno) ->
  run (main rt [c]) =
  (Exited (-1),
   emit [style rt msg red false; style rt doc red false;
         style rt (PyInt pos) red false; style rt (PyInt lineno) red false;
         style rt (PyInt colno) red false]
        (requested (command_request rt c) initial)).
Proof.
  intros Hv Hu Hj. rewrite run_main_invoke. unfold run.
  rewrite (invoke_pipeline rt c initial Hv).
  now rewrite (pipeline_JSONDecodeError rt _ _ initial response
                 msg doc pos lineno colno Hu Hj).
Qed.

(** C4 (as amended).  When [json.loads] raises [JSONDecodeError] on the
    body, the operation prints the message, the document, the offset, the
    line and the column of the error, each in red, and the process exits
    with -1. *)
Theorem decode_error_is_reported (rt : runtime) (c : command)
    (response : HTTPResponse) (msg doc : string) (pos lineno colno : Z) :
  passes_validation c = true ->
  urlopen_meets rt 0 (command_request rt c) = Ret response ->
  json_loads rt (read response) =
    Raise (JSONDecodeError msg doc pos lineno colno) ->
  run (main rt [c]) =
  (Exited (-1),
   {| stdout := [mkStyled msg red false; mkStyled doc red false;
                 mkStyled (str_of_Z pos) red false;
                 mkStyled (str_of_Z lineno) red false;
                 mkStyled (str_of_Z colno) red false];
      requests := [command_request rt c] |}).
Proof.
  intros Hv Hu Hj.
  now rewrite (decode_error_is_reported_aux rt c response msg doc pos
                 lineno colno Hv Hu Hj).
Qed.

Lemma decode_error_is_reported_witness :
  run (main (Sample.serving (list_byte_of_string "[1,")
               (Raise (JSONDecodeError "Expecting value" "[1," 3 1 4)))
            [People]) =
  (Exited (-1),
   {| stdout := [mkStyled "Expecting value" red false;
                 mkStyled "[1," red false; mkStyled "3" red false;
                 mkStyled "1" red false; mkStyled "4" red false];
      requests := [mkRequest "http://api.open-notify.org/astros.json"] |}).
Proof.
  refine (decode_error_is_reported
            (Sample.serving (list_byte_of_string "[1,")
               (Raise (JSONDecodeError "Expecting value" "[1," 3 1 4)))
            People (mkResponse (list_byte_of_string "[1,"))
            "Expecting value" "[1," 3 1 4 _ _ _); reflexivity.
Defined.

(** C4 as it is stated fails on a body that is not text: on the single byte
    0xff [json.loads] raises [UnicodeDecodeError], which the clause for
    [JSONDecodeError] does not catch; nothing is reported and the process
    ends in a traceback. *)
Lemma undecodable_body_ends_in_traceback :
  run (main (Sample.serving [Byte.xff] (Raise UnicodeDecodeError)) [Loc]) =
  (Traceback UnicodeDecodeError,
   {| stdout := [];
      requests := [mkRequest "http://api.open-notify.org/iss-now.json"] |}).
Proof. reflexivity. Qed.

(** The first half of C5: a response whose message is "failure" has its
    reason printed as it is, and the process exits with -1. *)
Lemma failure_reason_is_printed (rt : runtime) (c : command)
    (obj reason : pyobj) :
  passes_validation c = true ->
  answers rt c obj ->
  Ret obj @: "message" = Ret (PyStr "failure") ->
  Ret obj @: "reason" = Ret reason ->
  run (main rt [c]) =
  (Exited (-1),
   {| stdout := [mkStyled (py_str rt reason) red false];
      requests := [command_request rt c] |}).
Proof.
  intros Hv Ha Hm Hr. rewrite (run_answered rt c obj Hv Ha).
  rewrite (try_except_passes _ _ _ _ (SystemExit (-1))
             (emit [style rt (py_str rt reason) red false]
                   (requested (command_request rt c) initial)));
    [reflexivity | | reflexivity].
  apply (body_not_success rt c obj _ _ (PyStr "failure")); try assumption;
    [reflexivity |].
  now apply message_error_failure.
Qed.

(** C5 on the code.  With a message that is neither "success" nor
    "failure", building the unknown-error line adds a [Request] object to a
    str: the [TypeError] is caught by the last [except], and what is printed
    before the exit with -1 is the common error of that [TypeError], never
    the line "Unknown error. Url: ... Response: ...". *)
Theorem unknown_message_ends_in_common_error (rt : runtime) (c : command)
    (obj m : pyobj) :
  passes_validation c = true ->
  answers rt c obj ->
  Ret obj @: "message" = Ret m ->
  eq_str m "success" = false ->
  eq_str m "failure" = false ->
  run (main rt [c]) =
  (Exited (-1),
   {| stdout :=
        [mkStyled ("Common error." ++ nl ++ "Error type: TypeError" ++ nl
                   ++ "Error: "
                   ++ type_error_text rt (ConcatNonStr "Request") ++ nl
                   ++ "Data: " ++ py_str rt obj) red false];
      requests := [command_request rt c] |}).
Proof.
  intros Hv Ha Hm Hs Hf. rewrite (run_answered rt c obj Hv Ha).
  rewrite (try_except_caught _ _ _ _ (TypeError (ConcatNonStr "Request"))
             (CTypeError (ConcatNonStr "Request"))
             (requested (command_request rt c) initial));
    [reflexivity | | reflexivity].
  apply (body_not_success rt c obj _ _ m); try assumption.
  now apply message_error_unknown with (m := m).
Qed.

Lemma unknown_message_ends_in_common_error_witness :
  run (main (Sample.serving_json Canned.unknown) [Loc]) =
  (Exited (-1),
   {| stdout :=
        [mkStyled
           ("Common error." ++ nl ++ "Error type: TypeError" ++ nl
            ++ "Error: "
            ++ Sample.cpython_text (ConcatNonStr "Request") ++ nl
            ++ "Data: " ++ "{'message': 'error'}") red false];
      requests := [mkRequest "http://api.open-notify.org/iss-now.json"] |}).
Proof.
  refine (unknown_message_ends_in_common_error
            (Sample.serving_json Canned.unknown) Loc Canned.unknown
            (PyStr "error") _ _ _ _ _); try reflexivity.
  eexists. split; reflexivity.
Defined.

(** C6 (as amended).  The exit code is 0 when the command completes, and
    -1 when the coordinates are rejected, when [urlopen] raises [URLError],
    when [json.loads] raises [JSONDecodeError], when the message of the
    response is not "success", and when presenting the response raises
    [RuntimeError], [TypeError], [NameError] or [KeyError]. *)
Theorem exit_codes (rt : runtime) (c : command) :
  (forall s, invoke rt c initial = (Ret tt, s) ->
             exit_code (fst (run (main rt [c]))) = 0)
  /\ (passes_validation c = false ->
      exit_code (fst (run (main rt [c]))) = -1)
  /\ (forall reason,
      passes_validation c = true ->
      urlopen_meets rt 0 (command_request rt c) = Raise (URLError reason) ->
      exit_code (fst (run (main rt [c]))) = -1)
  /\ (forall response msg doc pos lineno colno,
      passes_validation c = true ->
      urlopen_meets rt 0 (command_request rt c) = Ret response ->
      json_loads rt (read response) =
        Raise (JSONDecodeError msg doc pos lineno colno) ->
      exit_code (fst (run (main rt [c]))) = -1)
  /\ (forall obj m,
      passes_validation c = true ->
      answers rt c obj ->
      Ret obj @: "message" = Ret m ->
      eq_str m "success" = false ->
      exit_code (fst (run (main rt [c]))) = -1)
  /\ (forall obj e ce s,
      passes_validation c = true ->
      answers rt c obj ->
      command_body rt c obj (command_request rt c)
                   (requested (command_request rt c) initial) = (Raise e, s) ->
      as_common e = Some ce ->
      exit_code (fst (run (main rt [c]))) = -1).
Proof.
  repeat split.
  - intros s H. rewrite run_main_invoke. unfold run. now rewrite H.
  - intros Hv. destruct c as [| lat lon |]; try discriminate.
    rewrite run_main_invoke. unfold run.
    now rewrite (invoke_rejected rt lat lon initial Hv).
  - intros reason Hv Hu. rewrite run_main_invoke. unfold run.
    rewrite (invoke_pipeline rt c initial Hv).
    now rewrite (pipeline_URLError rt _ _ initial reason Hu).
  - intros response msg doc pos lineno colno Hv Hu Hj.
    now rewrite (decode_error_is_reported_aux rt c response msg doc pos
                   lineno colno Hv Hu Hj).
  - intros obj m Hv Ha Hm Hs. rewrite (run_answered rt c obj Hv Ha).
    destruct (message_error_exits rt obj (command_request rt c)
                (requested (command_request rt c) initial) m Hm)
      as [e [s' [He Hcases]]].
    pose proof (body_not_success rt c obj _ _ m e s' Hm Hs He) as Hb.
    destruct Hcases as [-> | [ce Hce]].
    + now rewrite (try_except_passes _ _ _ _ _ _ Hb eq_refl).
    + now rewrite (try_except_caught _ _ _ _ _ _ _ Hb Hce).
  - intros obj e ce s Hv Ha Hb Hce. rewrite (run_answered rt c obj Hv Ha).
    now rewrite (try_except_caught _ _ _ _ _ _ _ Hb Hce).
Qed.

Lemma exit_codes_witness :
  exit_code (fst (run (main (Sample.serving_json Canned.location_ok)
                            [Loc]))) = 0
  /\ exit_code (fst (run (main (Sample.unreachable "timed out")
                               [Pass (Some (float_of_Z 95)) None]))) = -1
  /\ exit_code (fst (run (main (Sample.unreachable "timed out")
                               [People]))) = -1
  /\ exit_code
       (fst (run (main (Sample.serving (list_byte_of_string "[1,")
                          (Raise (JSONDecodeError "Expecting value" "[1,"
                                    3 1 4)))
                       [Loc]))) = -1
  /\ exit_code (fst (run (main (Sample.serving_json Canned.failure)
                               [Canned.no_pass]))) = -1
  /\ exit_code (fst (run (main (Sample.serving_json Canned.location_live)
                               [Loc]))) = -1.
Proof.
  split; [| split; [| split; [| split; [| split]]]].
  - refine (proj1 (exit_codes (Sample.serving_json Canned.location_ok) Loc)
                  (emit (location_lines
                           (Sample.serving_json Canned.location_ok)
                           "2023-07-22 04:26:40" (PyStr "10.1")
                           (PyStr "-20.2"))
                        (requested
                           (mkRequest "http://api.open-notify.org/iss-now.json")
                           initial)) _).
    reflexivity.
  - refine (proj1 (proj2 (exit_codes (Sample.unreachable "timed out")
                            (Pass (Some (float_of_Z 95)) None))) _).
    reflexivity.
  - refine (proj1 (proj2 (proj2 (exit_codes (Sample.unreachable "timed out")
                                    People))) "timed out" _ _); reflexivity.
  - refine (proj1 (proj2 (proj2 (proj2
              (exit_codes (Sample.serving (list_byte_of_string "[1,")
                             (Raise (JSONDecodeError "Expecting value" "[1,"
                                       3 1 4))) Loc))))
              (mkResponse (list_byte_of_string "[1,"))
              "Expecting value" "[1," 3 1 4 _ _ _); reflexivity.
  - refine (proj1 (proj2 (proj2 (proj2 (proj2
              (exit_codes (Sample.serving_json Canned.failure)
                          Canned.no_pass)))))
              Canned.failure (PyStr "failure") _ _ _ _);
      try reflexivity.
    eexists. split; reflexivity.
  - refine (proj2 (proj2 (proj2 (proj2 (proj2
              (exit_codes (Sample.serving_json Canned.location_live) Loc)))))
              Canned.location_live (KeyError (PyStr "timestampss"))
              (CKeyError (PyStr "timestampss"))
              (requested
                 (mkRequest "http://api.open-notify.org/iss-now.json")
                 initial) _ _ _ _);
      try reflexivity.
    eexists. split; reflexivity.
Defined.

(** C6 as it is stated fails on the errors no [except] clause names: a
    people response whose [number] is the word "many" ([ValueError]), a
    people response that announces four people and lists three
    ([IndexError]) and a body that is not text ([UnicodeDecodeError]) all
    end in a traceback, and the exit code is 1. *)
Lemma uncaught_errors_exit_with_1 :
  run (main (Sample.serving_json Canned.people_uncounted) [People]) =
  (Traceback ValueError,
   {| stdout := [];
      requests := [mkRequest "http://api.open-notify.org/astros.json"] |})
  /\ exit_code
       (fst (run (main (Sample.serving_json Canned.people_uncounted)
                       [People]))) = 1
  /\ exit_code
       (fst (run (main (Sample.serving_json (Canned.people_of 4 Canned.crew))
                       [People]))) = 1
  /\ exit_code
       (fst (run (main (Sample.serving [Byte.xff] (Raise UnicodeDecodeError))
                       [Canned.no_pass]))) = 1.
Proof. repeat split. Qed.




(** C8 (as amended).  A command sends no request when its coordinates are
    rejected and exactly one otherwise, whatever the service answers: there
    is no retry and no second request.  When [urlopen] raises [URLError]
    the reason is printed in red and the process exits with -1, that one
    request being the only one.  Whatever else [urlopen] raises, the exit
    code is not 0 either; what is not a [URLError] is not reported: the
    program prints nothing and the run ends in the traceback of that
    exception. *)
Theorem one_request_per_invocation (rt : runtime) (c : command) :
  (List.length (requests (snd (run (main rt [c])))) <= 1)%nat
  /\ (passes_validation c = true ->
      requests (snd (run (main rt [c]))) = [command_request rt c])
  /\ (passes_validation c = false ->
      requests (snd (run (main rt [c]))) = [])
  /\ (forall reason,
      passes_validation c = true ->
      urlopen_meets rt 0 (command_request rt c) = Raise (URLError reason) ->
      run (main rt [c]) =
      (Exited (-1),
       {| stdout := [mkStyled reason red false];
          requests := [command_request rt c] |}))
  /\ (forall e,
      passes_validation c = true ->
      urlopen_meets rt 0 (command_request rt c) = Raise e ->
      (forall code, e <> SystemExit code) ->
      exit_code (fst (run (main rt [c]))) <> 0)
  /\ (forall e,
      passes_validation c = true ->
      urlopen_meets rt 0 (command_request rt c) = Raise e ->
      (forall code, e <> SystemExit code) ->
      as_URLError e = None ->
      run (main rt [c]) =
      (Traceback e,
       {| stdout := []; requests := [command_request rt c] |})).
Proof.
  assert (Hone : passes_validation c = true ->
                 requests (snd (run (main rt [c]))) = [command_request rt c]).
  { intros Hv. rewrite run_main_invoke, run_requests.
    rewrite (invoke_pipeline rt c initial Hv).
    apply (sends_pipeline rt c initial). }
  assert (Hnone : passes_validation c = false ->
                  requests (snd (run (main rt [c]))) = []).
  { intros Hv. destruct c as [| lat lon |]; try discriminate.
    rewrite run_main_invoke, run_requests.
    now rewrite (invoke_rejected rt lat lon initial Hv). }
  repeat split; try assumption.
  - destruct (passes_validation c) eqn:Hv.
    + rewrite (Hone eq_refl). simpl. lia.
    + rewrite (Hnone eq_refl). simpl. lia.
  - intros reason Hv Hu. rewrite run_main_invoke. unfold run.
    rewrite (invoke_pipeline rt c initial Hv).
    now rewrite (pipeline_URLError rt _ _ initial reason Hu).
  - intros e Hv Hu Hne. rewrite run_main_invoke. unfold run.
    rewrite (invoke_pipeline rt c initial Hv).
    destruct (as_URLError e) as [reason |] eqn:He.
    + destruct e; try discriminate. injection He as ->.
      now rewrite (pipeline_URLError rt _ _ initial reason Hu).
    + rewrite (pipeline_urlopen_raises rt _ _ initial e Hu He).
      destruct e; simpl; try discriminate. now destruct (Hne code).
  - intros e Hv Hu Hne He. rewrite run_main_invoke. unfold run.
    rewrite (invoke_pipeline rt c initial Hv).
    rewrite (pipeline_urlopen_raises rt _ _ initial e Hu He).
    destruct e; try reflexivity. now destruct (Hne code).
Qed.

Lemma one_request_per_invocation_witness :
  requests (snd (run (main (Sample.serving_json Canned.location_ok) [Loc]))) =
  [mkRequest "http://api.open-notify.org/iss-now.json"]
  /\ requests (snd (run (main (Sample.serving_json Canned.location_ok)
                              [Pass None (Some (float_of_Z 181))]))) = []
  /\ run (main (Sample.unreachable "[Errno 111] Connection refused")
               [People]) =
     (Exited (-1),
      {| stdout := [mkStyled "[Errno 111] Connection refused" red false];
         requests := [mkRequest "http://api.open-notify.org/astros.json"] |})
  /\ exit_code (fst (run (main (Sample.disconnecting) [Loc]))) <> 0
  /\ run (main Sample.disconnecting [People]) =
     (Traceback (OtherError "RemoteDisconnected"),
      {| stdout := [];
         requests := [mkRequest "http://api.open-notify.org/astros.json"] |}).
Proof.
  split; [| split; [| split; [| split]]].
  - refine (proj1 (proj2 (one_request_per_invocation
                            (Sample.serving_json Canned.location_ok) Loc)) _).
    reflexivity.
  - refine (proj1 (proj2 (proj2 (one_request_per_invocation
                                   (Sample.serving_json Canned.location_ok)
                                   (Pass None (Some (float_of_Z 181)))))) _).
    reflexivity.
  - refine (proj1 (proj2 (proj2 (proj2 (one_request_per_invocation
                                          (Sample.unreachable
                                             "[Errno 111] Connection refused")
                                          People))))
                  "[Errno 111] Connection refused" _ _); reflexivity.
  - refine (proj1 (proj2 (proj2 (proj2 (proj2 (one_request_per_invocation
                                                 Sample.disconnecting Loc)))))
                  (OtherError "RemoteDisconnected") _ _ _);
      try reflexivity.
    intros code. discriminate.
  - refine (proj2 (proj2 (proj2 (proj2 (proj2 (one_request_per_invocation
                                                 Sample.disconnecting
                                                 People)))))
                  (OtherError "RemoteDisconnected") _ _ _ _);
      try reflexivity.
    intros code. discriminate.
Defined.

(** C8 as it is stated fails on a transport failure that [urlopen] does not
    wrap in [URLError]: when the server closes the connection without an
    answer, [http.client.RemoteDisconnected] passes the [except URLError]
    clause, no reason is printed and the run ends in a traceback. *)
Lemma disconnected_server_is_not_reported :
  run (main Sample.disconnecting [Loc]) =
  (Traceback (OtherError "RemoteDisconnected"),
   {| stdout := [];
      requests := [mkRequest "http://api.open-notify.org/iss-now.json"] |}).
Proof. reflexivity. Qed.

Lemma append_assoc (a b c : string) : ((a ++ b) ++ c = a ++ (b ++ c))%string.
Proof. induction a as [| x a IH]; simpl; [reflexivity | now rewrite IH]. Qed.

Lemma location_on_class (rt : runtime) (cls : ISSClass) (s : state) :
  location_on rt (class_object cls) s = location rt cls s.
Proof. reflexivity. Qed.

Lemma people_on_class (rt : runtime) (cls : ISSClass) (s : state) :
  people_on rt (class_object cls) s = people rt cls s.
Proof. reflexivity. Qed.

Lemma passing_on_class (rt : runtime) (cls : ISSClass) (lat lon : pyfloat)
    (s : state) :
  passing_on rt (class_object cls) lat lon s = passing rt cls lat lon s.
Proof.
  assert (Hret : forall (k : unit -> M unit) s0, bind (ret tt) k s0 = k tt s0)
    by reflexivity.
  unfold passing_on, passing.
  destruct (float_lt lat (float_of_Z (-80)) || float_gt lat (float_of_Z 80));
    [reflexivity |].
  rewrite !Hret.
  destruct (float_lt lon (float_of_Z (-180))
            || float_gt lon (float_of_Z 180));
    [reflexivity |].
  rewrite !Hret. cbv zeta.
  change (class_object cls "PASSING_URL") with (Ret (VText (PASSING_URL cls))).
  rewrite bind_lift_ret. cbn [add_text]. rewrite bind_lift_ret.
  now rewrite append_assoc.
Qed.

Lemma same_constants_instance (self : ISSSpaceStation) :
  same_constants (instance_object self) (class_object (type_of self)).
Proof.
  intros name [<- | [<- | [<- | []]]]; reflexivity.
Qed.

Lemma same_constants_run (rt : runtime) (r r' : receiver) :
  same_constants r r' ->
  (forall s, location_on rt r s = location_on rt r' s)
  /\ (forall lat lon s, passing_on rt r lat lon s = passing_on rt r' lat lon s)
  /\ (forall s, people_on rt r s = people_on rt r' s).
Proof.
  intros H.
  assert (Hl : r "LOCATION_URL" = r' "LOCATION_URL")
    by (apply H; simpl; tauto).
  assert (Hp : r "PASSING_URL" = r' "PASSING_URL")
    by (apply H; simpl; tauto).
  assert (Hq : r "PEOPLE_URL" = r' "PEOPLE_URL")
    by (apply H; simpl; tauto).
  split; [| split].
  - intros s. unfold location_on. now rewrite Hl.
  - intros lat lon s. unfold passing_on. now rewrite Hp.
  - intros s. unfold people_on. now rewrite Hq.
Qed.

(** The receiver is read: an instance on which [LOCATION_URL] is rebound
    to the stored latitude sends no request and ends in the [ValueError] of
    [Request]. *)
Example rebound_constant_is_read (rt : runtime) (a b : pyfloat) :
  run (location_on rt (rebound (init a b))) = (Traceback ValueError, initial)
  /\ run (people_on rt (rebound (init a b))) =
     run (people rt ISSSpaceStation_class).
Proof. split; reflexivity. Qed.

(** C10.  The constructor stores its latitude as a one-element tuple and
    its longitude as it is, and both can be read on the instance; the three
    operations read neither.  Each uses its receiver for one of the three
    URL constants only, so two receivers on which these resolve alike give
    the same computation; on an instance they resolve in the class, because
    the instance binds [latitude] and [longitude] only.  Hence the operation
    applied to an instance built from any constructor arguments is the
    subcommand as the program runs it, and two instances built from any two
    argument pairs give, for the same operation, the same arguments and the
    same world, the same lines, the same requests and the same end. *)
Theorem constructor_arguments_are_unused (rt : runtime) (a b : pyfloat) :
  instance_object (init a b) "latitude" = Ret (VStored (ATuple [a]))
  /\ instance_object (init a b) "longitude" = Ret (VStored (AFloat b))
  /\ (forall r r',
      same_constants r r' ->
      (forall s, location_on rt r s = location_on rt r' s)
      /\ (forall lat lon s,
          passing_on rt r lat lon s = passing_on rt r' lat lon s)
      /\ (forall s, people_on rt r s = people_on rt r' s))
  /\ (forall s, location_on rt (instance_object (init a b)) s = make_loc rt s)
  /\ (forall lat lon s,
      passing_on rt (instance_object (init a b)) lat lon s =
      make_passing rt lat lon s)
  /\ (forall s, people_on rt (instance_object (init a b)) s = make_people rt s)
  /\ (forall a' b',
      run (location_on rt (instance_object (init a b))) =
      run (location_on rt (instance_object (init a' b')))
      /\ (forall lat lon,
          run (passing_on rt (instance_object (init a b)) lat lon) =
          run (passing_on rt (instance_object (init a' b')) lat lon))
      /\ run (people_on rt (instance_object (init a b))) =
         run (people_on rt (instance_object (init a' b')))).
Proof.
  pose proof (same_constants_run rt _ _ (same_constants_instance (init a b)))
    as [Hl [Hp Hq]].
  split; [reflexivity |]. split; [reflexivity |].
  split; [exact (same_constants_run rt) |].
  split; [| split; [| split]].
  - intros s. rewrite Hl. apply location_on_class.
  - intros lat lon s. rewrite Hp. apply passing_on_class.
  - intros s. rewrite Hq. apply people_on_class.
  - intros a' b'.
    pose proof (same_constants_run rt _ _
                  (same_constants_instance (init a' b'))) as [Hl' [Hp' Hq']].
    unfold run. split; [| split].
    + now rewrite Hl, Hl'.
    + intros lat lon. now rewrite Hp, Hp'.
    + now rewrite Hq, Hq'.
Qed.

Lemma constructor_arguments_are_unused_witness :
  (forall s,
      location_on (Sample.serving_json Canned.location_ok)
                  (instance_object (init (float_of_Z 51) (float_of_Z 7))) s =
      location_on (Sample.serving_json Canned.location_ok)
                  (class_object ISSSpaceStation_class) s)
  /\ run (passing_on (Sample.serving_json (Canned.passing_of 0 []))
                     (instance_object (init (float_of_Z 51) (float_of_Z 7)))
                     (float_of_Z 0) (float_of_Z 0)) =
     run (passing_on (Sample.serving_json (Canned.passing_of 0 []))
                     (instance_object (init (float_of_Z 0) (float_of_Z 0)))
                     (float_of_Z 0) (float_of_Z 0)).
Proof.
  split.
  - refine (proj1 (proj1 (proj2 (proj2 (constructor_arguments_are_unused
                                          (Sample.serving_json
                                             Canned.location_ok)
                                          (float_of_Z 51) (float_of_Z 7))))
                         (instance_object
                            (init (float_of_Z 51) (float_of_Z 7)))
                         (class_object ISSSpaceStation_class) _)).
    intros name [<- | [<- | [<- | []]]]; reflexivity.
  - exact (proj1 (proj2 (proj2 (proj2 (proj2 (proj2 (proj2 (proj2
             (constructor_arguments_are_unused
                (Sample.serving_json (Canned.passing_of 0 []))
                (float_of_Z 51) (float_of_Z 7)))))))
             (float_of_Z 0) (float_of_Z 0)))
           (float_of_Z 0) (float_of_Z 0)).
Defined.

(** ** Beyond the claims: the check, chains of commands, odd responses *)

Section Conduct.

Variable rt : runtime.

Lemma beyond_accepted lo hi x : beyond lo hi x = negb (accepted lo hi x).
Proof.
  unfold beyond, accepted, in_range, float_of_Z.
  destruct x as [q | | |]; simpl; try reflexivity.
  now rewrite negb_andb, !negb_involutive.
Qed.

Lemma passes_validation_accepted lat lon :
  passes_validation (Pass lat lon) =
  accepted (-80) 80 (option_value lat)
  && accepted (-180) 180 (option_value lon).
Proof.
  unfold passes_validation. now rewrite !beyond_accepted, !negb_involutive.
Qed.

(** What one command does to the list of requests, from any state. *)
Lemma invoke_requests c s :
  requests (snd (invoke rt c s)) =
  if passes_validation c then (requests s ++ [command_request rt c])%list
  else requests s.
Proof.
  destruct (passes_validation c) eqn:Hv.
  - rewrite (invoke_pipeline rt c s Hv). apply (sends_pipeline rt c s).
  - destruct c as [| lat lon |]; try discriminate.
    now rewrite (invoke_rejected rt lat lon s Hv).
Qed.

Lemma for_app {A} (xs ys : list A) (body : A -> M unit) s :
  for_ (xs ++ ys) body s =
  match for_ xs body s with
  | (Ret _, s') => for_ ys body s'
  | (Raise e, s') => (Raise e, s')
  end.
Proof.
  revert s. induction xs as [| x xs IH]; intros s; simpl.
  - reflexivity.
  - unfold bind. destruct (body x s) as [[u | e] s']; [apply IH | reflexivity].
Qed.

Lemma chain_requests argv s :
  (List.length (requests (snd (for_ argv (invoke rt) s)))
   <= List.length (requests s) + List.length argv)%nat.
Proof.
  revert s. induction argv as [| c cs IH]; intros s; simpl.
  - lia.
  - unfold bind. pose proof (invoke_requests c s) as Hc.
    destruct (invoke rt c s) as [[u | e] s']; simpl in *.
    + specialize (IH s').
      destruct (passes_validation c); rewrite Hc in IH;
        [rewrite length_app in IH; simpl in IH |]; lia.
    + destruct (passes_validation c); rewrite Hc;
        [rewrite length_app; simpl |]; lia.
Qed.

Lemma cli_requests argv s :
  requests (snd (main rt argv s)) =
  requests (snd (for_ argv (invoke rt) s)).
Proof.
  destruct argv as [| c cs]; [reflexivity |].
  unfold main, cli, bind, exit, raise.
  destruct (for_ (c :: cs) (invoke rt) s) as [[u | e] s']; reflexivity.
Qed.

End Conduct.

(** X1.  The check of [passing] lets through exactly the coordinates that
    are inside the inclusive ranges or NaN: the passing request is sent for
    them and for no others. *)
Theorem request_sent_iff_accepted (rt : runtime) (lat lon : pyfloat) :
  requests (snd (run (main rt [Pass (Some lat) (Some lon)]))) <> []
  <-> accepted (-80) 80 lat = true /\ accepted (-180) 180 lon = true.
Proof.
  rewrite run_main_invoke, run_requests, invoke_requests.
  rewrite passes_validation_accepted. simpl option_value.
  destruct (accepted (-80) 80 lat), (accepted (-180) 180 lon); simpl;
    split; intros H; try (now destruct H); try discriminate;
    try (split; reflexivity); try (now elim H).
Qed.

Lemma request_sent_iff_accepted_witness :
  requests (snd (run (main (Sample.unreachable "timed out")
                          [Pass (Some NaN) (Some (float_of_Z 180))]))) <> [].
Proof.
  apply (proj2 (request_sent_iff_accepted (Sample.unreachable "timed out")
                  NaN (float_of_Z 180))).
  split; reflexivity.
Defined.

(** X2.  A chain of subcommands sends at most one request per
    subcommand. *)
Theorem chain_sends_at_most_one_request_each (rt : runtime)
    (argv : list command) :
  (List.length (requests (snd (run (main rt argv)))) <= List.length argv)%nat.
Proof.
  rewrite run_requests, cli_requests.
  apply (chain_requests rt argv initial).
Qed.

(** How a chain with at least one subcommand ends. *)
Lemma main_of_chain (rt : runtime) (argv : list command) (s : state) :
  argv <> [] ->
  main rt argv s =
  match for_ argv (invoke rt) s with
  | (Ret _, s') => (Raise (SystemExit 0), s')
  | (Raise e, s') => (Raise e, s')
  end.
Proof.
  intros Hne. destruct argv as [| c cs]; [now destruct Hne |].
  unfold main, cli, bind, exit, raise.
  destruct (for_ (c :: cs) (invoke rt) s) as [[u | e] s']; reflexivity.
Qed.

(** X3.  A chain stops at the first subcommand that raises: when the
    subcommands before [c] complete and [c] raises, the process ends as [c]
    ends, and the subcommands after it neither print nor send anything. *)
Theorem chain_stops_at_first_failure (rt : runtime)
    (before after : list command) (c : command) (e : exc) (s s' : state) :
  for_ before (invoke rt) initial = (Ret tt, s) ->
  invoke rt c s = (Raise e, s') ->
  run (main rt (before ++ c :: after)) = finish (Raise e, s').
Proof.
  intros Hb Hc. unfold run.
  rewrite main_of_chain by (now destruct before).
  rewrite for_app, Hb. simpl. unfold bind at 1. rewrite Hc. reflexivity.
Qed.

Lemma chain_stops_at_first_failure_witness :
  run (main (Sample.serving_json Canned.location_ok)
            ([Loc] ++ Pass (Some (float_of_Z 95)) None :: [Loc; People])) =
  (Exited (-1),
   {| stdout :=
        location_lines (Sample.serving_json Canned.location_ok)
                       "2023-07-22 04:26:40" (PyStr "10.1") (PyStr "-20.2")
        ++ [mkStyled "Latitude must be number between -80.0 and 80.0"
                     red false];
      requests := [mkRequest "http://api.open-notify.org/iss-now.json"] |}).
Proof.
  refine (chain_stops_at_first_failure
            (Sample.serving_json Canned.location_ok)
            [Loc] [Loc; People] (Pass (Some (float_of_Z 95)) None)
            (SystemExit (-1))
            (emit (location_lines (Sample.serving_json Canned.location_ok)
                     "2023-07-22 04:26:40" (PyStr "10.1") (PyStr "-20.2"))
                  (requested
                     (mkRequest "http://api.open-notify.org/iss-now.json")
                     initial))
            _ _ _); reflexivity.
Defined.

(** ** Responses that fail, or that say more or less than they announce *)

(** X4.  A response whose message is "failure" is reported in one red
    line and ends the process with -1: the line is [str] of its reason
    when it has one, and the common error for the missing key [reason]
    when it has none. *)
Theorem failure_is_reported (rt : runtime) (c : command)
    (kv : list (string * pyobj)) :
  passes_validation c = true ->
  answers rt c (PyDict kv) ->
  lookup "message" kv = Some (PyStr "failure") ->
  run (main rt [c]) =
  (Exited (-1),
   {| stdout :=
        [mkStyled
           match lookup "reason" kv with
           | Some reason => py_str rt reason
           | None => common_text rt (CKeyError (PyStr "reason")) (PyDict kv)
           end red false];
      requests := [command_request rt c] |}).
Proof.
  intros Hv Ha Hm.
  assert (Hmsg : Ret (PyDict kv) @: "message" = Ret (PyStr "failure"))
    by (simpl; now rewrite Hm).
  destruct (lookup "reason" kv) as [reason |] eqn:Hr.
  - apply (failure_reason_is_printed rt c (PyDict kv) reason);
      try assumption.
    simpl. now rewrite Hr.
  - rewrite (run_answered rt c _ Hv Ha).
    rewrite (try_except_caught _ _ _ _ (KeyError (PyStr "reason"))
               (CKeyError (PyStr "reason"))
               (requested (command_request rt c) initial));
      [reflexivity | | reflexivity].
    apply (body_not_success rt c _ _ _ (PyStr "failure"));
      [assumption | reflexivity |].
    unfold message_error. rewrite Hmsg, bind_lift_ret, eq_str_same.
    unfold bind at 1. simpl. now rewrite Hr.
Qed.

Lemma failure_is_reported_witness :
  run (main (Sample.serving_json Canned.failure) [Canned.no_pass]) =
  (Exited (-1),
   {| stdout := [mkStyled "Latitude must be number between -90.0 and 90.0"
                          red false];
      requests :=
        [mkRequest "http://api.open-notify.org/iss-pass.json?lat=0.0&lon=0.0"]
   |})
  /\ run (main (Sample.serving_json Odd.failure_without_reason) [People]) =
     (Exited (-1),
      {| stdout :=
           [mkStyled ("Common error." ++ nl ++ "Error type: KeyError" ++ nl
                      ++ "Error: 'reason'" ++ nl
                      ++ "Data: {'message': 'failure'}") red false];
         requests := [mkRequest "http://api.open-notify.org/astros.json"] |}).
Proof.
  split.
  - refine (failure_is_reported (Sample.serving_json Canned.failure)
              Canned.no_pass
              [("message", PyStr "failure");
               ("reason",
                PyStr "Latitude must be number between -90.0 and 90.0")]
              _ _ _); try reflexivity.
    eexists. split; reflexivity.
  - refine (failure_is_reported
              (Sample.serving_json Odd.failure_without_reason) People
              [("message", PyStr "failure")] _ _ _); try reflexivity.
    eexists. split; reflexivity.
Defined.

(** X5.  A parsed response from which [message] cannot be read, because it
    is not an object or because it has no such key, is reported through the
    common error, which shows the whole parsed value, and the process exits
    with -1; nothing else is printed. *)
Theorem unreadable_message_is_reported (rt : runtime) (c : command)
    (obj : pyobj) (e : exc) :
  passes_validation c = true ->
  answers rt c obj ->
  getitem obj "message" = Raise e ->
  exists ce,
    as_common e = Some ce
    /\ run (main rt [c]) =
       (Exited (-1),
        {| stdout := [mkStyled (common_text rt ce obj) red false];
           requests := [command_request rt c] |}).
Proof.
  intros Hv Ha Hm.
  destruct (getitem_raises_common obj "message" e Hm) as [ce Hce].
  exists ce. split; [assumption |].
  rewrite (run_answered rt c obj Hv Ha).
  rewrite (try_except_caught _ _ _ _ e ce
             (requested (command_request rt c) initial));
    [reflexivity | | assumption].
  now apply body_message_raises.
Qed.

Lemma unreadable_message_is_reported_witness :
  (exists ce,
      as_common (TypeError (BadIndices "list" "str")) = Some ce
      /\ run (main (Sample.serving_json (PyList [])) [Loc]) =
         (Exited (-1),
          {| stdout :=
               [mkStyled (common_text (Sample.serving_json (PyList [])) ce
                                      (PyList [])) red false];
             requests :=
               [mkRequest "http://api.open-notify.org/iss-now.json"] |}))
  /\ (exists ce,
      as_common (KeyError (PyStr "message")) = Some ce
      /\ run (main (Sample.serving_json Odd.no_message) [People]) =
         (Exited (-1),
          {| stdout :=
               [mkStyled (common_text (Sample.serving_json Odd.no_message) ce
                                      Odd.no_message) red false];
             requests :=
               [mkRequest "http://api.open-notify.org/astros.json"] |})).
Proof.
  split.
  - refine (unreadable_message_is_reported
              (Sample.serving_json (PyList [])) Loc (PyList [])
              (TypeError (BadIndices "list" "str")) _ _ _); try reflexivity.
    eexists. split; reflexivity.
  - refine (unreadable_message_is_reported
              (Sample.serving_json Odd.no_message) People Odd.no_message
              (KeyError (PyStr "message")) _ _ _); try reflexivity.
    eexists. split; reflexivity.
Defined.

(** X6.  With an announced count of zero or less the row loop does not
    run: [passing] prints its header and the closing separator, [people]
    its header and the closing separator, the process ends with 0, and the
    array ([response], [people]) is not even looked for. *)
Theorem nonpositive_count_prints_no_row (rt : runtime) :
  (forall lat lon obj la lo p passes,
      passes_validation (Pass lat lon) = true ->
      answers rt (Pass lat lon) obj ->
      Ret obj @: "message" = Ret (PyStr "success") ->
      Ret obj @: "request" @: "latitude" = Ret la ->
      Ret obj @: "request" @: "longitude" = Ret lo ->
      Ret obj @: "request" @: "passes" = Ret p ->
      py_int rt p = Ret passes ->
      passes <= 0 ->
      run (main rt [Pass lat lon]) =
      (Exited 0,
       {| stdout := passing_header rt la lo passes ++ [closing rt];
          requests := [command_request rt (Pass lat lon)] |}))
  /\ (forall obj n number,
      answers rt People obj ->
      Ret obj @: "message" = Ret (PyStr "success") ->
      Ret obj @: "number" = Ret n ->
      py_int rt n = Ret number ->
      number <= 0 ->
      run (main rt [People]) =
      (Exited 0,
       {| stdout := people_header rt ++ [closing rt];
          requests := [command_request rt People] |})).
Proof.
  split.
  - intros lat lon obj la lo p passes Hv Ha Hm Hla Hlo Hp Hn Hle.
    rewrite (run_answered rt _ obj Hv Ha). cbn [command_body].
    erewrite try_except_ok; [reflexivity |].
    unfold passing_body. rewrite Hm, bind_lift_ret, eq_str_same.
    unfold bind at 1.
    rewrite Hla, bind_lift_ret, Hlo, bind_lift_ret, Hp, bind_lift_ret.
    rewrite Hn, bind_lift_ret, !bind_echo.
    unfold range. replace (Z.to_nat passes) with 0%nat by lia. simpl.
    rewrite echo_emit, !emit_emit. reflexivity.
  - intros obj n number Ha Hm Hn Hi Hle.
    rewrite (run_answered rt People obj eq_refl Ha). cbn [command_body].
    erewrite try_except_ok; [reflexivity |].
    unfold people_body. rewrite Hm, bind_lift_ret, eq_str_same.
    unfold bind at 1.
    rewrite Hn, bind_lift_ret, Hi, bind_lift_ret, !bind_echo.
    unfold range. replace (Z.to_nat number) with 0%nat by lia. simpl.
    rewrite echo_emit, !emit_emit. reflexivity.
Qed.

Lemma nonpositive_count_prints_no_row_witness :
  run (main (Sample.serving_json (Odd.passing_without_response (PyInt 0)))
            [Canned.no_pass]) =
  (Exited 0,
   {| stdout :=
        passing_header
          (Sample.serving_json (Odd.passing_without_response (PyInt 0)))
          (PyFloat (float_of_Z 0)) (PyFloat (float_of_Z 0)) 0
        ++ [mkStyled separator green false];
      requests :=
        [mkRequest "http://api.open-notify.org/iss-pass.json?lat=0.0&lon=0.0"]
   |})
  /\ run (main (Sample.serving_json (Odd.people_without_people (PyInt (-2))))
               [People]) =
     (Exited 0,
      {| stdout :=
           people_header
             (Sample.serving_json (Odd.people_without_people (PyInt (-2))))
           ++ [mkStyled separator green false];
         requests := [mkRequest "http://api.open-notify.org/astros.json"] |}).
Proof.
  split.
  - refine (proj1 (nonpositive_count_prints_no_row
                     (Sample.serving_json
                        (Odd.passing_without_response (PyInt 0))))
                  None None (Odd.passing_without_response (PyInt 0))
                  (PyFloat (float_of_Z 0)) (PyFloat (float_of_Z 0))
                  (PyInt 0) 0 _ _ _ _ _ _ _ _); try reflexivity; try lia.
    eexists. split; reflexivity.
  - refine (proj2 (nonpositive_count_prints_no_row
                     (Sample.serving_json
                        (Odd.people_without_people (PyInt (-2)))))
                  (Odd.people_without_people (PyInt (-2)))
                  (PyInt (-2)) (-2) _ _ _ _ _); try reflexivity; try lia.
    eexists. split; reflexivity.
Defined.

(** X7.  Only the announced number of entries is shown: when the array
    holds at least as many entries as announced, the rows are those of the
    first [passes] (or [number]) entries, in order, and the entries after
    them are not read, whatever they are. *)
Theorem only_announced_rows_are_shown (rt : runtime) :
  (forall lat lon obj la lo passes entries rows,
      passes_validation (Pass lat lon) = true ->
      answers rt (Pass lat lon) obj ->
      passing_response rt obj la lo passes entries ->
      passes <= Z.of_nat (List.length entries) ->
      Forall2 (fun e l => pass_row rt e = Some l)
              (firstn (Z.to_nat passes) entries) rows ->
      run (main rt [Pass lat lon]) =
      (Exited 0,
       {| stdout := passing_header rt la lo passes ++ rows ++ [closing rt];
          requests := [command_request rt (Pass lat lon)] |}))
  /\ (forall obj number entries rows,
      answers rt People obj ->
      people_response rt obj number entries ->
      number <= Z.of_nat (List.length entries) ->
      Forall2 (fun e l => person_row rt e = Some l)
              (firstn (Z.to_nat number) entries) rows ->
      run (main rt [People]) =
      (Exited 0,
       {| stdout := people_header rt ++ rows ++ [closing rt];
          requests := [command_request rt People] |})).
Proof.
  split.
  - intros lat lon obj la lo passes entries rows Hv Ha Hr Hlen Hrows.
    rewrite (run_answered rt _ obj Hv Ha). cbn [command_body].
    rewrite (try_except_ok _ _ _ _ _ _
               (passing_body_first_rows rt obj _ _ la lo passes entries rows
                  Hr Hlen Hrows)).
    reflexivity.
  - intros obj number entries rows Ha Hr Hlen Hrows.
    rewrite (run_answered rt People obj eq_refl Ha). cbn [command_body].
    rewrite (try_except_ok _ _ _ _ _ _
               (people_body_first_rows rt obj _ _ number entries rows
                  Hr Hlen Hrows)).
    reflexivity.
Qed.

Lemma only_announced_rows_are_shown_witness :
  run (main (Sample.serving_json
               (Canned.passing_of 1 [Canned.pass1; PyNone; Canned.pass2]))
            [Canned.no_pass]) =
  (Exited 0,
   {| stdout :=
        passing_header
          (Sample.serving_json
             (Canned.passing_of 1 [Canned.pass1; PyNone; Canned.pass2]))
          (PyFloat (float_of_Z 0)) (PyFloat (float_of_Z 0)) 1
        ++ [mkStyled "|                  600 |  2023-07-22 04:26:40|"
                     green false]
        ++ [mkStyled separator green false];
      requests :=
        [mkRequest "http://api.open-notify.org/iss-pass.json?lat=0.0&lon=0.0"]
   |})
  /\ run (main (Sample.serving_json (Canned.people_of 2 Canned.crew))
               [People]) =
     (Exited 0,
      {| stdout :=
           people_header (Sample.serving_json (Canned.people_of 2 Canned.crew))
           ++ [mkStyled "|        Chris Cassidy |                  ISS|"
                        green false;
               mkStyled "|    Anatoly Ivanishin |                  ISS|"
                        green false]
           ++ [mkStyled separator green false];
         requests := [mkRequest "http://api.open-notify.org/astros.json"] |}).
Proof.
  split.
  - refine (proj1 (only_announced_rows_are_shown
                     (Sample.serving_json
                        (Canned.passing_of 1
                           [Canned.pass1; PyNone; Canned.pass2])))
                  None None
                  (Canned.passing_of 1 [Canned.pass1; PyNone; Canned.pass2])
                  (PyFloat (float_of_Z 0)) (PyFloat (float_of_Z 0)) 1
                  [Canned.pass1; PyNone; Canned.pass2]
                  [mkStyled "|                  600 |  2023-07-22 04:26:40|"
                            green false] _ _ _ _ _).
    + reflexivity.
    + eexists. split; reflexivity.
    + constructor; try reflexivity. eexists. split; reflexivity.
    + simpl. lia.
    + repeat constructor.
  - refine (proj2 (only_announced_rows_are_shown
                     (Sample.serving_json (Canned.people_of 2 Canned.crew)))
                  (Canned.people_of 2 Canned.crew) 2 Canned.crew
                  [mkStyled "|        Chris Cassidy |                  ISS|"
                            green false;
                   mkStyled "|    Anatoly Ivanishin |                  ISS|"
                            green false] _ _ _ _).
    + eexists. split; reflexivity.
    + constructor; try reflexivity. eexists. split; reflexivity.
    + simpl. lia.
    + repeat constructor.
Defined.

(** X8.  A row that fails leaves the rows before it on the terminal: when
    entry [k] is within the announced count and the entries before it are
    shown, the exception its row raises comes after the header and those
    [k] rows; the run then ends through the common error (exit -1) when the
    last [except] names the exception, as for a missing key, and in a
    traceback otherwise. *)
Theorem failing_row_follows_printed_rows (rt : runtime) :
  (forall lat lon obj la lo passes entries rows k bad e,
      passes_validation (Pass lat lon) = true ->
      answers rt (Pass lat lon) obj ->
      passing_response rt obj la lo passes entries ->
      Z.of_nat k < passes ->
      Forall2 (fun e l => pass_row rt e = Some l) (firstn k entries) rows ->
      nth_error entries k = Some bad ->
      pass_row_failure rt bad = Some e ->
      run (main rt [Pass lat lon]) =
      ends_after rt (passing_header rt la lo passes ++ rows) e obj
                 (command_request rt (Pass lat lon)))
  /\ (forall obj number entries rows k bad e,
      answers rt People obj ->
      people_response rt obj number entries ->
      Z.of_nat k < number ->
      Forall2 (fun e l => person_row rt e = Some l) (firstn k entries) rows ->
      nth_error entries k = Some bad ->
      person_row_failure bad = Some e ->
      run (main rt [People]) =
      ends_after rt (people_header rt ++ rows) e obj
                 (command_request rt People)).
Proof.
  split.
  - intros lat lon obj la lo passes entries rows k bad e
           Hv Ha Hr Hk Hrows Hbad He.
    rewrite (run_answered rt _ obj Hv Ha).
    apply finish_try_raises.
    + now apply (pass_row_failure_no_exit rt bad).
    + cbn [command_body].
      now apply (passing_body_failing_row rt obj _ _ la lo passes entries
                   rows k bad e).
  - intros obj number entries rows k bad e Ha Hr Hk Hrows Hbad He.
    rewrite (run_answered rt People obj eq_refl Ha).
    apply finish_try_raises.
    + now apply (person_row_failure_no_exit bad).
    + cbn [command_body].
      now apply (people_body_failing_row rt obj _ _ number entries
                   rows k bad e).
Qed.

Lemma failing_row_follows_printed_rows_witness :
  run (main (Sample.serving_json
               (Canned.passing_of 3
                  [Canned.pass1; Odd.pass_without_risetime; Canned.pass2]))
            [Canned.no_pass]) =
  (Exited (-1),
   {| stdout :=
        (passing_header
           (Sample.serving_json
              (Canned.passing_of 3
                 [Canned.pass1; Odd.pass_without_risetime; Canned.pass2]))
           (PyFloat (float_of_Z 0)) (PyFloat (float_of_Z 0)) 3
         ++ [mkStyled "|                  600 |  2023-07-22 04:26:40|"
                      green false])
        ++ [mkStyled
              (common_text
                 (Sample.serving_json
                    (Canned.passing_of 3
                       [Canned.pass1; Odd.pass_without_risetime;
                        Canned.pass2]))
                 (CKeyError (PyStr "risetime"))
                 (Canned.passing_of 3
                    [Canned.pass1; Odd.pass_without_risetime; Canned.pass2]))
              red false];
      requests :=
        [mkRequest "http://api.open-notify.org/iss-pass.json?lat=0.0&lon=0.0"]
   |})
  /\ run (main (Sample.serving_json
                  (Canned.people_of 2 [Canned.person "Ivan Vagner" "ISS";
                                       PyStr "nobody"]))
               [People]) =
     (Exited (-1),
      {| stdout :=
           (people_header
              (Sample.serving_json
                 (Canned.people_of 2 [Canned.person "Ivan Vagner" "ISS";
                                      PyStr "nobody"]))
            ++ [mkStyled "|          Ivan Vagner |                  ISS|"
                         green false])
           ++ [mkStyled
                 (common_text
                    (Sample.serving_json
                       (Canned.people_of 2
                          [Canned.person "Ivan Vagner" "ISS";
                           PyStr "nobody"]))
                    (CTypeError (BadIndices "str" "str"))
                    (Canned.people_of 2 [Canned.person "Ivan Vagner" "ISS";
                                         PyStr "nobody"]))
                 red false];
         requests := [mkRequest "http://api.open-notify.org/astros.json"] |}).
Proof.
  split.
  - refine (proj1 (failing_row_follows_printed_rows
                     (Sample.serving_json
                        (Canned.passing_of 3
                           [Canned.pass1; Odd.pass_without_risetime;
                            Canned.pass2])))
                  None None
                  (Canned.passing_of 3
                     [Canned.pass1; Odd.pass_without_risetime; Canned.pass2])
                  (PyFloat (float_of_Z 0)) (PyFloat (float_of_Z 0)) 3
                  [Canned.pass1; Odd.pass_without_risetime; Canned.pass2]
                  [mkStyled "|                  600 |  2023-07-22 04:26:40|"
                            green false]
                  1%nat Odd.pass_without_risetime
                  (KeyError (PyStr "risetime")) _ _ _ _ _ _ _).
    + reflexivity.
    + eexists. split; reflexivity.
    + constructor; try reflexivity. eexists. split; reflexivity.
    + simpl. lia.
    + repeat constructor.
    + reflexivity.
    + reflexivity.
  - refine (proj2 (failing_row_follows_printed_rows
                     (Sample.serving_json
                        (Canned.people_of 2
                           [Canned.person "Ivan Vagner" "ISS";
                            PyStr "nobody"])))
                  (Canned.people_of 2 [Canned.person "Ivan Vagner" "ISS";
                                       PyStr "nobody"])
                  2 [Canned.person "Ivan Vagner" "ISS"; PyStr "nobody"]
                  [mkStyled "|          Ivan Vagner |                  ISS|"
                            green false]
                  1%nat (PyStr "nobody")
                  (TypeError (BadIndices "str" "str")) _ _ _ _ _ _).
    + eexists. split; reflexivity.
    + constructor; try reflexivity. eexists. split; reflexivity.
    + simpl. lia.
    + repeat constructor.
    + reflexivity.
    + reflexivity.
Defined.

(** ** The one block of [location] *)

Section LocationBlock.

Variable rt : runtime.

Lemma sub_key_no_exit (r : result pyobj) k : no_exit r -> no_exit (r @: k).
Proof.
  intros Hr code. destruct r as [o | e]; simpl.
  - apply getitem_no_exit.
  - apply Hr.
Qed.

Lemma no_exit_ret {A} (a : A) : no_exit (Ret a).
Proof. intros code. discriminate. Qed.

Lemma datetime_no_exit t : no_exit (datetime_fromtimestamp rt t).
Proof.
  intros code. unfold datetime_fromtimestamp.
  destruct (fromtimestamp rt t); discriminate.
Qed.

(** [message_error], called as the program calls it, prints at most one
    line, red, and then raises. *)
Lemma message_error_outcome obj url s m :
  Ret obj @: "message" = Ret m ->
  (exists line,
      fg line = red
      /\ @message_error rt unit obj (UrlRequest url) s
         = (Raise (SystemExit (-1)), emit [line] s))
  \/ (exists e,
      no_exit (@Raise unit e)
      /\ @message_error rt unit obj (UrlRequest url) s = (Raise e, s)).
Proof.
  intros Hm. unfold message_error. rewrite Hm, bind_lift_ret.
  destruct (eq_str m "failure").
  - unfold bind at 1.
    destruct (Ret obj @: "reason") as [reason | e] eqn:Hr.
    + left. eexists. split; [| reflexivity]. reflexivity.
    + right. exists e. split; [| reflexivity].
      intros code H. injection H as ->.
      exact (sub_key_no_exit (Ret obj) "reason" (no_exit_ret obj) code Hr).
  - right. eexists. split; [| reflexivity]. intros code. discriminate.
Qed.

Lemma location_body_outcomes obj url s :
  (exists time la lo,
      location_body rt obj url s
      = (Ret tt, emit (location_lines rt time la lo) s))
  \/ (exists line,
      fg line = red
      /\ location_body rt obj url s
         = (Raise (SystemExit (-1)), emit [line] s))
  \/ (exists e,
      no_exit (@Raise unit e)
      /\ location_body rt obj url s = (Raise e, s)).
Proof.
  assert (Hraise : forall (r : result pyobj) e,
             no_exit r -> r = Raise e -> no_exit (@Raise unit e)).
  { intros r e Hr -> code H. injection H as ->. now apply (Hr code). }
  unfold location_body.
  destruct (Ret obj @: "message") as [m | e] eqn:Hm.
  2:{ right. right. exists e. split; [| reflexivity].
      apply (Hraise _ e (sub_key_no_exit _ "message" (no_exit_ret obj)) Hm). }
  rewrite bind_lift_ret. destruct (eq_str m "success").
  2:{ destruct (message_error_outcome obj url s m Hm)
        as [[line [Hred H]] | [e [Hne H]]].
      - right. left. now exists line.
      - right. right. now exists e. }
  destruct (Ret obj @: "timestampss") as [stamp | e] eqn:Hs.
  2:{ right. right. exists e. split; [| reflexivity].
      apply (Hraise _ e (sub_key_no_exit _ "timestampss" (no_exit_ret obj))
                    Hs). }
  rewrite bind_lift_ret.
  destruct (py_int rt stamp) as [t | e] eqn:Ht.
  2:{ right. right. exists e. split; [| reflexivity].
      intros code H. injection H as ->. now apply (py_int_no_exit rt stamp code). }
  rewrite bind_lift_ret.
  destruct (datetime_fromtimestamp rt t) as [time | e] eqn:Hd.
  2:{ right. right. exists e. split; [| reflexivity].
      intros code H. injection H as ->. now apply (datetime_no_exit t code). }
  rewrite bind_lift_ret.
  destruct (Ret obj @: "iss_position" @: "latitude") as [la | e] eqn:Hla.
  2:{ right. right. exists e. split; [| reflexivity].
      intros code H. injection H as ->.
      exact (sub_key_no_exit _ "latitude"
               (sub_key_no_exit _ "iss_position" (no_exit_ret obj)) code Hla). }
  rewrite bind_lift_ret.
  destruct (Ret obj @: "iss_position" @: "longitude") as [lo | e] eqn:Hlo.
  2:{ right. right. exists e. split; [| reflexivity].
      intros code H. injection H as ->.
      exact (sub_key_no_exit _ "longitude"
               (sub_key_no_exit _ "iss_position" (no_exit_ret obj)) code Hlo). }
  rewrite bind_lift_ret.
  left. exists time, la, lo.
  rewrite !bind_echo, echo_emit, !emit_emit. reflexivity.
Qed.

End LocationBlock.

(** X9.  [location] prints all of its block or none of it: once the
    response is parsed, the terminal shows either the four lines of the
    block (exit code 0), or a single red line and nothing else (exit code
    -1), or nothing at all (a traceback of an exception the last [except]
    does not name). *)
Theorem location_prints_all_or_nothing (rt : runtime) (obj : pyobj) :
  answers rt Loc obj ->
  (exists time la lo,
      run (main rt [Loc]) =
      (Exited 0,
       {| stdout := location_lines rt time la lo;
          requests := [command_request rt Loc] |}))
  \/ (exists line,
      fg line = red
      /\ run (main rt [Loc]) =
         (Exited (-1),
          {| stdout := [line]; requests := [command_request rt Loc] |}))
  \/ (exists e,
      as_common e = None
      /\ run (main rt [Loc]) =
         (Traceback e,
          {| stdout := []; requests := [command_request rt Loc] |})).
Proof.
  intros Ha. rewrite (run_answered rt Loc obj eq_refl Ha). cbn [command_body].
  destruct (location_body_outcomes rt obj (command_request rt Loc)
              (requested (command_request rt Loc) initial))
    as [[time [la [lo H]]] | [[line [Hred H]] | [e [Hne H]]]].
  - left. exists time, la, lo.
    now rewrite (try_except_ok _ _ _ _ _ _ H).
  - right. left. exists line. split; [assumption |].
    now rewrite (try_except_passes _ _ _ _ _ _ H eq_refl).
  - destruct (as_common e) as [ce |] eqn:Hce.
    + right. left. eexists. split; [| now rewrite
        (try_except_caught _ _ _ _ _ _ _ H Hce)]. reflexivity.
    + right. right. exists e. split; [assumption |].
      rewrite (try_except_passes _ _ _ _ _ _ H Hce).
      destruct e; try reflexivity. now destruct (Hne code).
Qed.

Lemma location_prints_all_or_nothing_witness :
  (exists time la lo,
      run (main (Sample.serving_json Odd.far_future) [Loc]) =
      (Exited 0,
       {| stdout := location_lines (Sample.serving_json Odd.far_future)
                                   time la lo;
          requests :=
            [command_request (Sample.serving_json Odd.far_future) Loc] |}))
  \/ (exists line,
      fg line = red
      /\ run (main (Sample.serving_json Odd.far_future) [Loc]) =
         (Exited (-1),
          {| stdout := [line];
             requests :=
               [command_request (Sample.serving_json Odd.far_future) Loc] |}))
  \/ (exists e,
      as_common e = None
      /\ run (main (Sample.serving_json Odd.far_future) [Loc]) =
         (Traceback e,
          {| stdout := [];
             requests :=
               [command_request (Sample.serving_json Odd.far_future) Loc] |})).
Proof.
  refine (location_prints_all_or_nothing
            (Sample.serving_json Odd.far_future) Odd.far_future _).
  eexists. split; reflexivity.
Defined.

(** ** The width of a row *)

Section Widths.

Variable rt : runtime.





End Widths.



(** ** The codes a process can end with *)

Section ExitCodes.

Variable rt : runtime.

Hypothesis Hhonest : honest rt.

Lemma sub_index_no_exit (r : result pyobj) i : no_exit r -> no_exit (r @# i).
Proof.
  intros Hr code. destruct r as [o | e]; simpl; [| apply Hr].
  destruct o; simpl; try discriminate.
  - destruct (String.get i s); discriminate.
  - destruct (nth_error items i); discriminate.
Qed.

Lemma concat_no_exit s u : no_exit (concat s u).
Proof. intros code. destruct u; discriminate. Qed.

Lemma emo_ret {A} (a : A) : exits_minus_one (ret a).
Proof. intros s code s' H. discriminate. Qed.

Lemma emo_lift {A} (r : result A) : no_exit r -> exits_minus_one (lift r).
Proof.
  intros Hr s code s' H. unfold lift in H. injection H as H _.
  now destruct (Hr code).
Qed.

Lemma emo_echo line : exits_minus_one (echo line).
Proof. intros s code s' H. discriminate. Qed.

Lemma emo_exit {A} : exits_minus_one (@exit A (-1)).
Proof. intros s code s' H. now injection H as <- _. Qed.

Lemma emo_bind {A B} (m : M A) (k : A -> M B) :
  exits_minus_one m -> (forall a, exits_minus_one (k a)) ->
  exits_minus_one (bind m k).
Proof.
  intros Hm Hk s code s' H. unfold bind in H.
  destruct (m s) as [[a | e] s1] eqn:Hms.
  - now apply (Hk a s1 code s').
  - injection H as -> ->. now apply (Hm s code s').
Qed.

Lemma emo_try_except {A X} (m : M A) (clause : exc -> option X)
    (h : X -> M A) :
  exits_minus_one m -> (forall x, exits_minus_one (h x)) ->
  exits_minus_one (try_except m clause h).
Proof.
  intros Hm Hh s code s' H. unfold try_except in H.
  destruct (m s) as [[a | e] s1] eqn:Hms; [discriminate |].
  destruct (clause e) as [x |].
  - now apply (Hh x s1 code s').
  - injection H as -> ->. now apply (Hm s code s').
Qed.

Lemma emo_for {A} (xs : list A) (body : A -> M unit) :
  (forall x, exits_minus_one (body x)) -> exits_minus_one (for_ xs body).
Proof.
  intros Hb. induction xs as [| x xs IH]; simpl.
  - apply emo_ret.
  - apply emo_bind; [apply Hb | intros _; exact IH].
Qed.

Lemma emo_urlopen url : exits_minus_one (urlopen rt url).
Proof.
  intros s code s' H. unfold urlopen in H. injection H as H _.
  now destruct (proj1 Hhonest (List.length (requests s)) url code).
Qed.

Create HintDb exits.
#[local] Hint Resolve emo_ret emo_lift emo_echo emo_exit emo_bind
  emo_try_except emo_for emo_urlopen sub_key_no_exit sub_index_no_exit
  no_exit_ret concat_no_exit getitem_no_exit : exits.
#[local] Hint Extern 1 (exits_minus_one (if ?b then _ else _)) =>
  destruct b : exits.
#[local] Hint Extern 1 (no_exit (py_int _ _)) => apply py_int_no_exit : exits.
#[local] Hint Extern 1 (no_exit (datetime_fromtimestamp _ _)) =>
  apply datetime_no_exit : exits.
#[local] Hint Extern 1 (no_exit (json_loads _ _)) =>
  exact (proj2 Hhonest _) : exits.

Lemma emo_invoke c : exits_minus_one (invoke rt c).
Proof.
  destruct c; simpl;
    unfold make_loc, make_passing, make_people, call_classmethod,
      location, passing, people, fetch, parse, request_error, json_error,
      common_error, location_body, passing_body, passing_row, people_body,
      people_row, message_error;
    auto 40 with exits.
Qed.

End ExitCodes.

(** X11.  Whatever the subcommands of a chain and whatever the service
    answers, the exit code of the process is 0, -1 or 1 (the traceback),
    provided the library calls do not raise [SystemExit] themselves; and it
    is 0 exactly when every subcommand completed.  A command line without
    subcommand ends with the exit code 2, nothing requested. *)
Theorem exit_codes_of_a_command_line (rt : runtime) (argv : list command) :
  honest rt ->
  (argv = [] ->
   run (main rt argv) = (Exited 2, initial))
  /\ (argv <> [] ->
      (exit_code (fst (run (main rt argv))) = 0
       \/ exit_code (fst (run (main rt argv))) = -1
       \/ exit_code (fst (run (main rt argv))) = 1)
      /\ (exit_code (fst (run (main rt argv))) = 0
          <-> exists s, for_ argv (invoke rt) initial = (Ret tt, s))).
Proof.
  intros Hh. split; [intros ->; reflexivity |].
  intros Hne. unfold run. rewrite (main_of_chain rt argv initial Hne).
  pose proof (emo_for argv (invoke rt) (emo_invoke rt Hh) initial) as Hfor.
  destruct (for_ argv (invoke rt) initial) as [[[] | e] s] eqn:Hrun.
  - simpl. split; [now left |]. split; [now exists s | reflexivity].
  - destruct e; simpl;
      try (split; [now (right; right) |];
           split; [discriminate | intros [s0 H]; discriminate]).
    rewrite (Hfor code s eq_refl). split; [now (right; left) |].
    split; [discriminate | intros [s0 H]; discriminate].
Qed.

Lemma exit_codes_of_a_command_line_witness :
  run (main (Sample.serving_json Canned.location_ok) []) = (Exited 2, initial)
  /\ ((exit_code (fst (run (main (Sample.serving_json Canned.location_ok)
                                 [Loc; Loc]))) = 0
       \/ exit_code (fst (run (main (Sample.serving_json Canned.location_ok)
                                    [Loc; Loc]))) = -1
       \/ exit_code (fst (run (main (Sample.serving_json Canned.location_ok)
                                    [Loc; Loc]))) = 1)
      /\ (exit_code (fst (run (main (Sample.serving_json Canned.location_ok)
                                    [Loc; Loc]))) = 0
          <-> exists s,
              for_ [Loc; Loc]
                   (invoke (Sample.serving_json Canned.location_ok))
                   initial = (Ret tt, s))).
Proof.
  assert (Hh : honest (Sample.serving_json Canned.location_ok))
    by (split; intros; discriminate).
  split.
  - refine (proj1 (exit_codes_of_a_command_line
                     (Sample.serving_json Canned.location_ok) [] Hh) _).
    reflexivity.
  - refine (proj2 (exit_codes_of_a_command_line
                     (Sample.serving_json Canned.location_ok) [Loc; Loc] Hh)
                  _).
    discriminate.
Defined.

(** ** What is printed does not depend on the request *)

Section Blind.

Variable rt : runtime.

Lemma blind_ret {A} (a : A) : blind (ret a).
Proof. intros s rs. reflexivity. Qed.

Lemma blind_raise {A} (e : exc) : blind (@raise A e).
Proof. intros s rs. reflexivity. Qed.

Lemma blind_exit {A} (code : Z) : blind (@exit A code).
Proof. intros s rs. reflexivity. Qed.

Lemma blind_lift {A} (r : result A) : blind (lift r).
Proof. intros s rs. reflexivity. Qed.

Lemma blind_echo (line : styled) : blind (echo line).
Proof. intros s rs. reflexivity. Qed.

Lemma blind_bind {A B} (m : M A) (k : A -> M B) :
  blind m -> (forall a, blind (k a)) -> blind (bind m k).
Proof.
  intros Hm Hk s rs. unfold bind. rewrite (Hm s rs).
  destruct (m s) as [[a | e] s1]; simpl.
  - apply Hk.
  - reflexivity.
Qed.

Lemma blind_try_except {A X} (m : M A) (clause : exc -> option X)
    (h : X -> M A) :
  blind m -> (forall x, blind (h x)) -> blind (try_except m clause h).
Proof.
  intros Hm Hh s rs. unfold try_except. rewrite (Hm s rs).
  destruct (m s) as [[a | e] s1]; simpl.
  - reflexivity.
  - destruct (clause e) as [x |]; [apply Hh | reflexivity].
Qed.

Lemma blind_for {A} (xs : list A) (body : A -> M unit) :
  (forall x, blind (body x)) -> blind (for_ xs body).
Proof.
  intros Hb. induction xs as [| x xs IH]; simpl.
  - apply blind_ret.
  - apply blind_bind; [apply Hb | intros _; exact IH].
Qed.

Create HintDb blind.
#[local] Hint Resolve blind_ret blind_raise blind_exit blind_lift blind_echo
  blind_bind blind_try_except blind_for : blind.
#[local] Hint Extern 1 (blind (if ?b then _ else _)) => destruct b : blind.

Lemma blind_presenter c obj url :
  blind (try_except (command_body rt c obj url) as_common
                    (fun ce => common_error rt ce obj)).
Proof.
  destruct c; simpl;
    unfold location_body, passing_body, passing_row, people_body, people_row,
      message_error, common_error;
    auto 40 with blind.
Qed.

(** The presenters use the request only to hand it to [message_error],
    which does not look into it. *)
Lemma body_ignores_request c obj url url' :
  command_body rt c obj url = command_body rt c obj url'.
Proof. destruct c; reflexivity. Qed.

End Blind.

(** X12.  What [passing] prints and how the process ends depend on the
    answer of the service only: two accepted pairs of coordinates that are
    answered with the same parsed response give the same lines and the same
    termination (the echoed latitude and longitude are those of the
    response). *)
Theorem passing_output_ignores_the_coordinates (rt : runtime)
    (lat lon lat' lon' : option pyfloat) (obj : pyobj) :
  passes_validation (Pass lat lon) = true ->
  passes_validation (Pass lat' lon') = true ->
  answers rt (Pass lat lon) obj ->
  answers rt (Pass lat' lon') obj ->
  fst (run (main rt [Pass lat lon])) = fst (run (main rt [Pass lat' lon']))
  /\ stdout (snd (run (main rt [Pass lat lon])))
     = stdout (snd (run (main rt [Pass lat' lon']))).
Proof.
  intros Hv Hv' Ha Ha'.
  rewrite (run_answered rt _ obj Hv Ha), (run_answered rt _ obj Hv' Ha').
  rewrite (body_ignores_request rt (Pass lat lon) obj _
             (command_request rt (Pass lat' lon'))).
  change (command_body rt (Pass lat lon)) with (command_body rt (Pass lat' lon')).
  pose proof (blind_presenter rt (Pass lat' lon') obj
                (command_request rt (Pass lat' lon')) initial) as Hb.
  change (requested (command_request rt (Pass lat lon)) initial)
    with (with_requests [command_request rt (Pass lat lon)] initial).
  change (requested (command_request rt (Pass lat' lon')) initial)
    with (with_requests [command_request rt (Pass lat' lon')] initial).
  rewrite !Hb.
  destruct (try_except
              (command_body rt (Pass lat' lon') obj
                 (command_request rt (Pass lat' lon'))) as_common
              (fun ce => common_error rt ce obj) initial) as [[u | e] s].
  - split; reflexivity.
  - destruct e; split; reflexivity.
Qed.

Lemma passing_output_ignores_the_coordinates_witness :
  fst (run (main (Sample.serving_json
                    (Canned.passing_of 2 [Canned.pass1; Canned.pass2]))
                 [Pass None None]))
  = fst (run (main (Sample.serving_json
                      (Canned.passing_of 2 [Canned.pass1; Canned.pass2]))
                   [Pass (Some (float_of_Z 45)) (Some (float_of_Z (-120)))]))
  /\ stdout (snd (run (main (Sample.serving_json
                               (Canned.passing_of 2
                                  [Canned.pass1; Canned.pass2]))
                            [Pass None None])))
     = stdout (snd (run (main (Sample.serving_json
                                 (Canned.passing_of 2
                                    [Canned.pass1; Canned.pass2]))
                              [Pass (Some (float_of_Z 45))
                                    (Some (float_of_Z (-120)))]))).
Proof.
  refine (passing_output_ignores_the_coordinates
            (Sample.serving_json
               (Canned.passing_of 2 [Canned.pass1; Canned.pass2]))
            None None (Some (float_of_Z 45)) (Some (float_of_Z (-120)))
            (Canned.passing_of 2 [Canned.pass1; Canned.pass2]) _ _ _ _);
    try reflexivity; eexists; split; reflexivity.
Defined.

(** ** Red is the colour of a handled error *)

Section Colours.

Variable rt : runtime.

Hypothesis Hhonest : honest rt.

Lemma rme_ret {A} (a : A) : red_means_exit (ret a).
Proof. intros s Hs. exact Hs. Qed.

Lemma rme_lift {A} (r : result A) : no_exit r -> red_means_exit (lift r).
Proof.
  intros Hr s Hs. unfold lift. destruct r as [a | e]; [exact Hs |].
  destruct e; try exact Hs. now destruct (Hr code).
Qed.

Lemma rme_echo line : calm line -> red_means_exit (echo line).
Proof.
  intros Hl s Hs. simpl. apply Forall_app. split; [exact Hs |].
  now constructor.
Qed.

Lemma rme_bind {A B} (m : M A) (k : A -> M B) :
  red_means_exit m -> (forall a, red_means_exit (k a)) ->
  red_means_exit (bind m k).
Proof.
  intros Hm Hk s Hs. unfold bind. specialize (Hm s Hs).
  destruct (m s) as [[a | e] s1].
  - now apply Hk.
  - exact Hm.
Qed.

Lemma rme_try_except {A X} (m : M A) (clause : exc -> option X)
    (h : X -> M A) :
  (forall code, clause (SystemExit code) = None) ->
  red_means_exit m -> (forall x, red_means_exit (h x)) ->
  red_means_exit (try_except m clause h).
Proof.
  intros Hc Hm Hh s Hs. unfold try_except. specialize (Hm s Hs).
  destruct (m s) as [[a | e] s1]; [exact Hm |].
  destruct (clause e) as [x |] eqn:Hx; [| exact Hm].
  apply Hh. destruct e; try exact Hm. now rewrite Hc in Hx.
Qed.

Lemma rme_for {A} (xs : list A) (body : A -> M unit) :
  (forall x, red_means_exit (body x)) -> red_means_exit (for_ xs body).
Proof.
  intros Hb. induction xs as [| x xs IH]; simpl.
  - apply rme_ret.
  - apply rme_bind; [apply Hb | intros _; exact IH].
Qed.

(** A reporter: lines, the last of them red, then [exit]. *)
Lemma rme_alarm {A} (lines : list styled) (line : styled) (code : Z) :
  fg line = red ->
  red_means_exit (for_ lines echo ;; echo line ;; @exit A code).
Proof.
  intros Hred s Hs.
  assert (H : forall s0, for_ lines echo s0 = (Ret tt, emit lines s0)).
  { induction lines as [| l ls IH]; intros s0; simpl.
    - now rewrite emit_nil.
    - rewrite (bind_ok _ _ _ tt (emit [l] s0) (echo_emit l s0)).
      now rewrite IH, emit_emit. }
  unfold bind at 1. rewrite H. unfold bind, echo, exit, raise. simpl.
  now exists (stdout s ++ lines)%list, line.
Qed.

Lemma rme_request_error {A} reason : red_means_exit (@request_error rt A reason).
Proof. exact (rme_alarm [] (style rt reason red false) (-1) eq_refl). Qed.

Lemma rme_common_error {A} ce obj : red_means_exit (@common_error rt A ce obj).
Proof.
  exact (rme_alarm [] (style rt (common_text rt ce obj) red false) (-1)
                   eq_refl).
Qed.

Lemma rme_json_error {A} je : red_means_exit (@json_error rt A je).
Proof.
  intros s Hs.
  pose proof (@rme_alarm A
                [style rt (je_msg je) red false;
                 style rt (je_doc je) red false;
                 style rt (PyInt (je_pos je)) red false;
                 style rt (PyInt (je_lineno je)) red false]
                (style rt (PyInt (je_colno je)) red false) (-1) eq_refl s Hs)
    as H.
  exact H.
Qed.

Lemma rme_message_error obj url :
  red_means_exit (@message_error rt unit obj (UrlRequest url)).
Proof.
  intros s Hs.
  destruct (Ret obj @: "message") as [m | e] eqn:Hm.
  - destruct (message_error_outcome rt obj url s m Hm)
      as [[line [Hred H]] | [e [Hne H]]]; rewrite H.
    + now exists (stdout s), line.
    + destruct e; try exact Hs. now destruct (Hne code).
  - unfold message_error. rewrite Hm, bind_lift_raise.
    destruct e; try exact Hs.
    now destruct (sub_key_no_exit (Ret obj) "message" (no_exit_ret obj)
                    code Hm).
Qed.

Lemma rme_urlopen url : red_means_exit (urlopen rt url).
Proof.
  intros s Hs. unfold urlopen.
  destruct (urlopen_meets rt (List.length (requests s)) url) as [r | e] eqn:H;
    [exact Hs |].
  destruct e; try exact Hs.
  now destruct (proj1 Hhonest (List.length (requests s)) url code).
Qed.

Create HintDb colours.
#[local] Hint Resolve rme_ret rme_lift rme_echo rme_bind rme_for
  rme_request_error rme_common_error rme_json_error rme_message_error
  rme_urlopen sub_key_no_exit sub_index_no_exit no_exit_ret getitem_no_exit
  : colours.
#[local] Hint Extern 1 (red_means_exit (if ?b then _ else _)) =>
  destruct b : colours.
#[local] Hint Extern 1 (red_means_exit (try_except _ _ _)) =>
  apply rme_try_except; [intros; reflexivity | | ] : colours.
#[local] Hint Extern 1 (calm _) => discriminate : colours.
#[local] Hint Extern 1 (no_exit (py_int _ _)) => apply py_int_no_exit : colours.
#[local] Hint Extern 1 (no_exit (datetime_fromtimestamp _ _)) =>
  apply datetime_no_exit : colours.
#[local] Hint Extern 1 (no_exit (json_loads _ _)) =>
  exact (proj2 Hhonest _) : colours.

Lemma rme_validation (bad : bool) (message : string) :
  red_means_exit
    (if bad then echo (style rt message red false) ;; exit (-1) else ret tt).
Proof.
  destruct bad; [| apply rme_ret].
  exact (rme_alarm [] (style rt message red false) (-1) eq_refl).
Qed.

Lemma rme_invoke c : red_means_exit (invoke rt c).
Proof.
  destruct c; simpl;
    unfold make_loc, make_passing, make_people, call_classmethod,
      location, passing, people, fetch, parse, location_body, passing_body,
      passing_row, people_body, people_row.
  - auto 40 with colours.
  - apply rme_bind; [apply rme_validation | intros _].
    apply rme_bind; [apply rme_validation | intros _].
    auto 40 with colours.
  - auto 40 with colours.
Qed.

End Colours.

(** X13.  Red is the colour of the errors the program handles, and of
    nothing else: provided the library calls do not raise [SystemExit]
    themselves, a process that exits through [exit(-1)] has a red line as
    the last line it printed, and a process that ends otherwise (with 0, in
    a traceback, or with the 2 of a command line without subcommand) has
    printed no red line at all. *)
Theorem red_line_iff_exit_minus_one (rt : runtime) (argv : list command) :
  honest rt ->
  match fst (run (main rt argv)) with
  | Exited code =>
      if code =? -1 then ends_in_red (snd (run (main rt argv)))
      else Forall calm (stdout (snd (run (main rt argv))))
  | Traceback _ => Forall calm (stdout (snd (run (main rt argv))))
  end.
Proof.
  intros Hh. destruct argv as [| c cs]; [apply Forall_nil |].
  unfold run. rewrite main_of_chain by discriminate.
  pose proof (rme_for (c :: cs) (invoke rt) (rme_invoke rt Hh) initial
                (Forall_nil calm)) as Hfor.
  pose proof (emo_for (c :: cs) (invoke rt) (emo_invoke rt Hh) initial)
    as Hcode.
  destruct (for_ (c :: cs) (invoke rt) initial) as [[u | e] s];
    [exact Hfor |].
  destruct e; try exact Hfor.
  rewrite (Hcode code s eq_refl). exact Hfor.
Qed.

Lemma red_line_iff_exit_minus_one_witness :
  ends_in_red
    (snd (run (main (Sample.serving_json Canned.failure)
                    [Loc; Canned.no_pass]))).
Proof.
  refine (red_line_iff_exit_minus_one
            (Sample.serving_json Canned.failure) [Loc; Canned.no_pass] _).
  split; intros; discriminate.
Defined.
